(** * anahit-backend: the news configuration models, the ingestion task,
      the retention sweep and the bulk-create endpoint

    A shallow embedding of [news_config/models.py], [news_config/tasks.py]
    and [news_config/api.py].

    Conventions of the embedding:
    - a Python [str] is a Rocq [string]; its characters are the code points
      U+0000..U+00FF;
    - a decoded JSON document is a [pyval] (floats are not modelled);
    - a Python [dict] built by the code is a [gmap] from its string keys;
      a dict decoded from JSON keeps its order and is an association list;
    - a timestamp is an integer number of microseconds since the epoch;
      arithmetic on a [datetime] raises outside the range of the type;
    - the relational store is a record of the two tables, threaded through
      every operation that touches it; a model object is identified with
      its row;
    - a clock reading is an argument of the operation that takes it;
    - what a function returns next to the store is [exn + A]: the exception
      raised, or the value;
    - log lines are left out. *)

From Stdlib Require Import ZArith String Ascii List Bool Lia.
From stdpp Require Import base option list gmap strings sorting.

Set Warnings "-register-all".

Local Open Scope string_scope.
Local Open Scope Z_scope.

(** ** Python values *)

Module Py.

(** What [json.loads] can return (without floats). *)
Inductive pyval : Type :=
| PNone : pyval
| PBool (b : bool) : pyval
| PInt (z : Z) : pyval
| PStr (s : string) : pyval
| PList (l : list pyval) : pyval
| PDict (d : list (string * pyval)) : pyval.

(** [bool(v)]. *)
Definition truthy (v : pyval) : bool :=
  match v with
  | PNone => false
  | PBool b => b
  | PInt z => negb (z =? 0)
  | PStr s => negb (String.eqb s "")
  | PList l => match l with [] => false | _ => true end
  | PDict d => match d with [] => false | _ => true end
  end.

(** [bool(s)] for a [str]. *)
Definition str_truthy (s : string) : bool := negb (String.eqb s "").

(** Lookup in a decoded JSON object. *)
Fixpoint assoc (k : string) (d : list (string * pyval)) : option pyval :=
  match d with
  | [] => None
  | (k', v) :: d' => if String.eqb k k' then Some v else assoc k d'
  end.

(** The exceptions the modelled code can meet. *)
Inductive exn : Type :=
| KeyError (k : string)
| TypeError
| AttributeError
| ValidationError
| IntegrityError
| DataError
| DoesNotExist
| DatabaseError
| OverflowError
| Http404
| RequestException.

(** Sequencing of computations that may raise. *)
#[export] Instance exn_ret : MRet (sum exn) := fun _ x => inr x.
#[export] Instance exn_bind : MBind (sum exn) :=
  fun _ _ f m => match m with inl e => inl e | inr x => f x end.

(** [v[k]] *)
Definition getitem (v : pyval) (k : string) : exn + pyval :=
  match v with
  | PDict d => match assoc k d with Some x => inr x | None => inl (KeyError k) end
  | _ => inl TypeError
  end.

(** [v.get(k)] *)
Definition get (v : pyval) (k : string) : exn + pyval :=
  match v with
  | PDict d => inr (default PNone (assoc k d))
  | _ => inl AttributeError
  end.

(** [v.get(k, dflt)] *)
Definition get_default (v : pyval) (k : string) (dflt : pyval) : exn + pyval :=
  match v with
  | PDict d => inr (default dflt (assoc k d))
  | _ => inl AttributeError
  end.

(** [str.isspace] on one character of the range modelled. *)
Definition is_space (c : ascii) : bool :=
  let n := nat_of_ascii c in
  ((9 <=? n)%nat && (n <=? 13)%nat) || ((28 <=? n)%nat && (n <=? 32)%nat)
  || (n =? 133)%nat || (n =? 160)%nat.

(** [s.lstrip()] *)
Fixpoint lstrip (s : string) : string :=
  match s with
  | EmptyString => EmptyString
  | String c r => if is_space c then lstrip r else s
  end.

(** [s.rstrip()] *)
Fixpoint rstrip (s : string) : string :=
  match s with
  | EmptyString => EmptyString
  | String c r =>
      match rstrip r with
      | EmptyString => if is_space c then EmptyString else String c EmptyString
      | r' => String c r'
      end
  end.

(** [s.strip()] *)
Definition strip (s : string) : string := rstrip (lstrip s).

(** [s.split(sep)] for a one-character separator. *)
Fixpoint split (sep : ascii) (s : string) : list string :=
  match s with
  | EmptyString => [EmptyString]
  | String c r =>
      if Ascii.eqb c sep then EmptyString :: split sep r
      else match split sep r with
           | h :: t => String c h :: t
           | [] => [String c EmptyString]
           end
  end.

(** [sep.join(l)] *)
Fixpoint join (sep : string) (l : list string) : string :=
  match l with
  | [] => EmptyString
  | [x] => x
  | x :: rest => x ++ sep ++ join sep rest
  end.

(** [iter(v)]: the elements a [for] loop visits, or [TypeError]. *)
Definition iter (v : pyval) : exn + list pyval :=
  match v with
  | PList l => inr l
  | PDict d => inr (map (fun kv => PStr (fst kv)) d)
  | PStr s => inr (map (fun c => PStr (String c EmptyString)) (list_ascii_of_string s))
  | _ => inl TypeError
  end.

End Py.
Import Py.

(** ** The models ([news_config/models.py]) *)

(** The columns of a [NewsSearchConfig] row; the primary key [id] is the
    key of the table (see [DB]). [user] is the key of the owner. *)
Record NewsSearchConfig : Type := mkConfig {
  user : Z;
  name : string;
  keywords : string;
  country : string;
  category : string;
  sources : string;
  sort_by : string;
  frequency : string;
  is_active : bool;
  created_at : Z;
  updated_at : Z;
  last_executed : option Z
}.

(** [NewsSearchConfig.get_sources_list] *)
Definition get_sources_list (self : NewsSearchConfig) : list string :=
  if str_truthy (sources self)
  then map strip (List.filter (fun s => str_truthy (strip s)) (split "," (sources self)))
  else [].

(** [NewsSearchConfig.get_newsapi_params] *)
Definition get_newsapi_params (self : NewsSearchConfig) : gmap string pyval :=
  let params : gmap string pyval :=
    <["sortBy" := PStr (sort_by self)]>
      (<["category" := PStr (category self)]>
         (<["country" := PStr (country self)]> ∅)) in
  let params :=
    if str_truthy (keywords self) then <["q" := PStr (keywords self)]> params
    else params in
  if str_truthy (sources self)
  then
    let params := <["sources" := PStr (join "," (get_sources_list self))]> params in
    let params := delete "country" params in
    delete "category" params
  else params.

(** A configuration with the field defaults of the model, for the given
    search fields. *)
Definition config_with (kw co ca so : string) : NewsSearchConfig :=
  mkConfig 1 "cfg" kw co ca so "publishedAt" "daily" true 0 0 None.

(** A row of [NewsArticle]. [search_config] is the key of the owning
    configuration. *)
Module Article.
Record NewsArticle : Type := mkArticle {
  id : Z;
  search_config : Z;
  title : string;
  description : option string;
  url : string;
  url_to_image : option string;
  published_at : Z;
  content : option string;
  source_id : option string;
  source_name : string;
  author : option string;
  created_at : Z;
  is_read : bool
}.
End Article.
Export Article (NewsArticle, mkArticle).

(** The relational store: the configuration table by primary key, the
    article table in insertion order, and the article key sequence. *)
Record DB : Type := mkDB {
  configs : gmap Z NewsSearchConfig;
  articles : list NewsArticle;
  next_article_id : Z
}.

(** The URLs of the stored articles. *)
Definition urls (db : DB) : list string := map Article.url (articles db).

(** The [unique=True] constraint on [NewsArticle.url]. *)
Definition url_unique (db : DB) : Prop := NoDup (urls db).

(** ** What the code does not define itself *)

(** A response of [requests.get]. [json] is what [response.json()] gives. *)
Record Response : Type := mkResponse {
  status_code : Z;
  json : exn + pyval
}.

(** The libraries and the outside world, as far as the code meets them. *)
Record Env : Type := mkEnv {
  (** [str(v)] for a value that is not a [str] *)
  py_repr : pyval -> string;
  (** the parser of [DateTimeField.to_python]; [None] is a string it rejects *)
  parse_datetime : string -> option Z;
  (** column checks of the database backend (length limits) *)
  db_accepts : NewsArticle -> bool;
  (** [requests.get(url, params=..., timeout=...)] *)
  requests_get : string -> gmap string pyval -> Z -> exn + Response;
  (** [str(e)] *)
  exn_str : exn -> string;
  (** [datetime.isoformat] *)
  isoformat : Z -> string;
  (** [getattr(settings, 'NEWS_API_KEY', None)] *)
  NEWS_API_KEY : option string
}.

(** [str(v)], as an f-string and [CharField.to_python] apply it. *)
Definition to_str (env : Env) (v : pyval) : string :=
  match v with
  | PStr s => s
  | _ => py_repr env v
  end.

(** [CharField.to_python] / [TextField.to_python]: a [str] or [None] is
    kept, anything else goes through [str]. *)
Definition char_to_python (env : Env) (v : pyval) : option string :=
  match v with
  | PNone => None
  | _ => Some (to_str env v)
  end.

(** [DateTimeField.to_python] on a decoded JSON value. *)
Definition datetime_to_python (env : Env) (v : pyval) : exn + option Z :=
  match v with
  | PNone => inr None
  | PStr s => match parse_datetime env s with
              | Some t => inr (Some t)
              | None => inl ValidationError
              end
  | _ => inl TypeError
  end.

(** ** [NewsArticle.create_from_newsapi] *)

(** The [defaults] dict of the call, evaluated. *)
Record Defaults : Type := mkDefaults {
  d_search_config : Z;
  d_title : pyval;
  d_description : pyval;
  d_url_to_image : pyval;
  d_published_at : pyval;
  d_content : pyval;
  d_source_id : pyval;
  d_source_name : pyval;
  d_author : pyval
}.

(** [article_data["source"].get("id") if article_data.get("source") else None] *)
Definition source_id_of (article_data : pyval) : exn + pyval :=
  c ← get article_data "source";
  if truthy c then s ← getitem article_data "source"; get s "id"
  else inr PNone.

(** [article_data["source"]["name"] if article_data.get("source") else "Unknown"] *)
Definition source_name_of (article_data : pyval) : exn + pyval :=
  c ← get article_data "source";
  if truthy c then s ← getitem article_data "source"; getitem s "name"
  else inr (PStr "Unknown").

(** The arguments of [get_or_create], evaluated left to right before the
    call: [url=...] first, then the entries of [defaults] in order. *)
Definition normalize (article_data : pyval) (search_config : Z) : exn + (pyval * Defaults) :=
  u ← getitem article_data "url";
  t ← getitem article_data "title";
  de ← get article_data "description";
  im ← get article_data "urlToImage";
  pa ← getitem article_data "publishedAt";
  co ← get article_data "content";
  si ← source_id_of article_data;
  sn ← source_name_of article_data;
  au ← get article_data "author";
  inr (u, mkDefaults search_config t de im pa co si sn au).

(** [cls.objects.get(url=u)]: the stored row of that URL, if any. A [None]
    is looked up as [IS NULL], which no row satisfies. *)
Definition get_by_url (env : Env) (u : pyval) (db : DB) : option NewsArticle :=
  match char_to_python env u with
  | None => None
  | Some s => find (fun a => String.eqb (Article.url a) s) (articles db)
  end.

(** [cls.objects.create(url=u, **defaults)]: the fields are converted, the
    row is stamped with the clock reading [now] ([auto_now_add]) and goes
    to the table unless a constraint refuses it. *)
Definition create (env : Env) (now : Z) (u : pyval) (d : Defaults) (db : DB)
  : (exn + NewsArticle) * DB :=
  match datetime_to_python env (d_published_at d) with
  | inl e => (inl e, db)
  | inr pa =>
      match configs db !! d_search_config d,
            char_to_python env (d_title d), char_to_python env u, pa,
            char_to_python env (d_source_name d) with
      | Some _, Some t, Some u', Some p, Some sn =>
          let row :=
            mkArticle (next_article_id db) (d_search_config d) t
              (char_to_python env (d_description d)) u'
              (char_to_python env (d_url_to_image d)) p
              (char_to_python env (d_content d))
              (char_to_python env (d_source_id d)) sn
              (char_to_python env (d_author d)) now false in
          if db_accepts env row
          then (inr row, mkDB (configs db) (articles db ++ [row]) (next_article_id db + 1))
          else (inl DataError, db)
      | _, _, _, _, _ => (inl IntegrityError, db)
      end
  end.

(** [cls.objects.get_or_create(url=u, defaults=d)] *)
Definition get_or_create (env : Env) (now : Z) (u : pyval) (d : Defaults) (db : DB)
  : (exn + (NewsArticle * bool)) * DB :=
  match get_by_url env u db with
  | Some a => (inr (a, false), db)
  | None =>
      match create env now u d db with
      | (inr a, db') => (inr (a, true), db')
      | (inl e, db') => (inl e, db')
      end
  end.

(** [NewsArticle.create_from_newsapi(article_data, search_config)], at the
    clock reading [now]. *)
Definition create_from_newsapi (env : Env) (now : Z) (article_data : pyval)
    (search_config : Z) (db : DB) : (exn + (NewsArticle * bool)) * DB :=
  match normalize article_data search_config with
  | inl e => (inl e, db)
  | inr (u, d) => get_or_create env now u d db
  end.

(** ** The tasks ([news_config/tasks.py]) *)

(** How a task invocation ends: it returns its result dict, or it raises.
    [Retry] is the exception of [self.retry] that makes the worker run the
    task again after [countdown] seconds; once the retries are used up
    [self.retry] raises the original exception instead. *)
Inductive task_outcome : Type :=
| Returned (result : gmap string pyval)
| Retry (countdown : Z) (exc : exn)
| Failed (exc : exn).

(** [max_retries=3] of the task decorator. *)
Definition max_retries : Z := 3.

(** [raise self.retry(countdown=countdown, exc=exc)], where [retries] is
    [self.request.retries]. *)
Definition retry (retries countdown : Z) (exc : exn) : task_outcome :=
  if max_retries <? retries + 1 then Failed exc else Retry countdown exc.

(** [NewsSearchConfig.objects.get(id=config_id, is_active=True)] *)
Definition get_active_config (config_id : Z) (db : DB) : exn + NewsSearchConfig :=
  match configs db !! config_id with
  | Some c => if is_active c then inr c else inl DoesNotExist
  | None => inl DoesNotExist
  end.

(** [a or b] on optional strings. *)
Definition str_or (a b : option string) : option string :=
  match a with
  | Some s => if str_truthy s then a else b
  | None => b
  end.

(** [response.raise_for_status()] *)
Definition raise_for_status (r : Response) : exn + unit :=
  if (400 <=? status_code r) && (status_code r <? 600) then inl RequestException
  else inr tt.

(** [v != 'ok'] *)
Definition not_ok (v : pyval) : bool :=
  match v with
  | PStr s => negb (String.eqb s "ok")
  | _ => true
  end.

(** The row with [last_executed] replaced. *)
Definition with_last_executed (t : Z) (c : NewsSearchConfig) : NewsSearchConfig :=
  mkConfig (user c) (name c) (keywords c) (country c) (category c) (sources c)
    (sort_by c) (frequency c) (is_active c) (created_at c) (updated_at c) (Some t).

(** [config.last_executed = t; config.save(update_fields=['last_executed'])]:
    an [UPDATE] of that one column of the row of key [config_id]; Django
    raises when no row was affected. *)
Definition save_last_executed (config_id t : Z) (db : DB) : (exn + unit) * DB :=
  match configs db !! config_id with
  | Some _ =>
      (inr tt, mkDB (alter (with_last_executed t) config_id (configs db))
                    (articles db) (next_article_id db))
  | None => (inl DatabaseError, db)
  end.

(** The loop over [articles] (lines 65-77). The [i]-th record is handled at
    the clock reading [clock i]; an exception of [create_from_newsapi] is
    logged and the loop goes on. Returns [(created_count, duplicate_count)]. *)
Fixpoint process_articles (env : Env) (clock : nat -> Z) (i : nat) (config_id : Z)
    (articles : list pyval) (created_count duplicate_count : Z) (db : DB)
  : (Z * Z) * DB :=
  match articles with
  | [] => ((created_count, duplicate_count), db)
  | article_data :: rest =>
      match create_from_newsapi env (clock i) article_data config_id db with
      | (inr (_, true), db') =>
          process_articles env clock (S i) config_id rest (created_count + 1) duplicate_count db'
      | (inr (_, false), db') =>
          process_articles env clock (S i) config_id rest created_count (duplicate_count + 1) db'
      | (inl _, db') =>
          process_articles env clock (S i) config_id rest created_count duplicate_count db'
      end
  end.

(** [{"error": msg}] *)
Definition error_result (msg : string) : gmap string pyval := {[ "error" := PStr msg ]}.

(** The result dict of a completed run. *)
Definition success_result (config_id : Z) (config_name : string)
    (total created_count duplicate_count : Z) : gmap string pyval :=
  <["status" := PStr "success"]>
    (<["duplicate_count" := PInt duplicate_count]>
       (<["created_count" := PInt created_count]>
          (<["total_articles" := PInt total]>
             (<["config_name" := PStr config_name]>
                (<["config_id" := PInt config_id]> ∅))))).

(** The URL of the request. *)
Definition endpoint : string := "https://newsapi.org/v2/top-headlines".

(** [params] as sent: the translated parameters, then [apiKey] and
    [pageSize]. *)
Definition request_params (config : NewsSearchConfig) (api_key : string)
  : gmap string pyval :=
  let params := get_newsapi_params config in
  let params := <["apiKey" := PStr api_key]> params in
  <["pageSize" := PInt 100]> params.

(** What follows the configuration and key checks, inside the outer [try]:
    the request, the status check, the loop and the timestamp. *)
Definition fetch_with_key (env : Env) (clock : nat -> Z) (end_clock : Z)
    (config_id : Z) (config : NewsSearchConfig) (api_key : string) (db : DB)
  : (exn + gmap string pyval) * DB :=
  match
    response ← requests_get env endpoint (request_params config api_key) 30;
    _ ← raise_for_status response;
    data ← json response;
    status ← get data "status";
    inr (data, status)
  with
  | inl e => (inl e, db)
  | inr (data, status) =>
      if not_ok status then
        match get_default data "message" (PStr "Unknown NewsAPI error") with
        | inl e => (inl e, db)
        | inr error_msg => (inr (error_result ("NewsAPI error: " ++ to_str env error_msg)), db)
        end
      else
        match articles_v ← get_default data "articles" (PList []); iter articles_v with
        | inl e => (inl e, db)
        | inr articles =>
            let '((created_count, duplicate_count), db1) :=
              process_articles env clock 0 config_id articles 0 0 db in
            match save_last_executed config_id end_clock db1 with
            | (inl e, db2) => (inl e, db2)
            | (inr _, db2) =>
                (inr (success_result config_id (name config)
                        (Z.of_nat (length articles)) created_count duplicate_count), db2)
            end
        end
  end.

(** The body of the outer [try] of [fetch_news_for_config]. *)
Definition fetch_try (env : Env) (clock : nat -> Z) (end_clock : Z)
    (config_id : Z) (news_api_key : option string) (db : DB)
  : (exn + gmap string pyval) * DB :=
  match get_active_config config_id db with
  | inl _ => (inr (error_result "Configuration not found or inactive"), db)
  | inr config =>
      match str_or news_api_key (NEWS_API_KEY env) with
      | Some api_key =>
          if str_truthy api_key
          then fetch_with_key env clock end_clock config_id config api_key db
          else (inr (error_result "No NewsAPI key configured"), db)
      | None => (inr (error_result "No NewsAPI key configured"), db)
      end
  end.

(** [fetch_news_for_config(self, config_id, news_api_key)]. [retries] is
    [self.request.retries]; [clock i] is the clock reading while the [i]-th
    record is handled and [end_clock] the reading of line 80. *)
Definition fetch_news_for_config (env : Env) (retries : Z) (clock : nat -> Z)
    (end_clock : Z) (config_id : Z) (news_api_key : option string) (db : DB)
  : task_outcome * DB :=
  match fetch_try env clock end_clock config_id news_api_key db with
  | (inr result, db') => (Returned result, db')
  | (inl RequestException, db') =>
      (retry retries (60 * (retries + 1)) RequestException, db')
  | (inl e, db') => (Returned (error_result ("Unexpected error: " ++ exn_str env e)), db')
  end.

(** The first and the last [datetime], 0001-01-01T00:00:00 and
    9999-12-31T23:59:59.999999, in microseconds since the epoch. *)
Definition datetime_min : Z := -62135596800000000.

Definition datetime_max : Z := 253402300799999999.

(** The microseconds of [n] days. *)
Definition days_us (n : Z) : Z := n * 86400000000.

(** [timedelta(days=n)], in microseconds; a [timedelta] holds at most
    999999999 days either way. *)
Definition timedelta_days (n : Z) : exn + Z :=
  if (-999999999 <=? n) && (n <=? 999999999) then inr (days_us n)
  else inl OverflowError.

(** [d - delta] for a [datetime] and a [timedelta]. *)
Definition datetime_sub (d delta : Z) : exn + Z :=
  if (datetime_min <=? d - delta) && (d - delta <=? datetime_max) then inr (d - delta)
  else inl OverflowError.

(** [created_at__lt=cutoff_date] *)
Definition created_before (cutoff_date : Z) (a : NewsArticle) : bool :=
  Article.created_at a <? cutoff_date.

(** [cleanup_old_articles(self, days_to_keep=30)] at the clock reading
    [now]; [None] stands for the argument left out. An exception of the
    computation of the cutoff is caught by the handler of lines 201-203. *)
Definition cleanup_old_articles (env : Env) (now : Z) (days_to_keep : option Z) (db : DB)
  : task_outcome * DB :=
  let days_to_keep := default 30 days_to_keep in
  match delta ← timedelta_days days_to_keep; datetime_sub now delta with
  | inl e => (Returned (error_result ("Cleanup error: " ++ exn_str env e)), db)
  | inr cutoff_date =>
      let old_articles := List.filter (created_before cutoff_date) (articles db) in
      let count := Z.of_nat (length old_articles) in
      let result (n : Z) : gmap string pyval :=
        <["status" := PStr "success"]>
          (<["cutoff_date" := PStr (isoformat env cutoff_date)]>
             (<["deleted_count" := PInt n]> ∅)) in
      if 0 <? count
      then (Returned (result count),
            mkDB (configs db)
                 (List.filter (fun a => negb (created_before cutoff_date a)) (articles db))
                 (next_article_id db))
      else (Returned (result 0), db)
  end.

(** ** The bulk-create endpoint ([news_config/api.py]) *)

(** The loop of [create_articles_from_newsapi]: no handler, so the first
    exception of [create_from_newsapi] ends the request. *)
Fixpoint create_articles_loop (env : Env) (clock : nat -> Z) (i : nat)
    (search_config_id : Z) (articles_data : list (list (string * pyval)))
    (created_articles : list NewsArticle) (db : DB)
  : (exn + list NewsArticle) * DB :=
  match articles_data with
  | [] => (inr created_articles, db)
  | article_data :: rest =>
      match create_from_newsapi env (clock i) (PDict article_data) search_config_id db with
      | (inr (article, _), db') =>
          create_articles_loop env clock (S i) search_config_id rest
            (created_articles ++ [article]) db'
      | (inl e, db') => (inl e, db')
      end
  end.

(** [create_articles_from_newsapi(request, search_config_id, articles_data)];
    [articles_data] is typed [List[dict]]. *)
Definition create_articles_from_newsapi (env : Env) (clock : nat -> Z)
    (search_config_id : Z) (articles_data : list (list (string * pyval))) (db : DB)
  : (exn + list NewsArticle) * DB :=
  match configs db !! search_config_id with
  | None => (inl Http404, db)
  | Some _ => create_articles_loop env clock 0 search_config_id articles_data [] db
  end.

(** ** Predicates of the statements and data of the examples *)

(** [p] holds of every character of the string. *)
Fixpoint string_forall (p : ascii -> bool) (s : string) : bool :=
  match s with
  | EmptyString => true
  | String c r => p c && string_forall p r
  end.

(** A comma or a whitespace character. *)
Definition comma_or_space (c : ascii) : bool := Ascii.eqb c "," || is_space c.

(** The record is a dict from which every argument of [get_or_create] can
    be read: it has the keys [url], [title] and [publishedAt], and its
    [source], when truthy, is a dict with a [name]. *)
Definition readable (d : list (string * pyval)) : bool :=
  match assoc "url" d, assoc "title" d, assoc "publishedAt" d with
  | Some _, Some _, Some _ =>
      let src := default PNone (assoc "source" d) in
      if truthy src
      then match src with
           | PDict sd => match assoc "name" sd with Some _ => true | None => false end
           | _ => false
           end
      else true
  | _, _, _ => false
  end.

(** The number of stored articles of URL [s]. *)
Definition stored_with_url (s : string) (db : DB) : nat :=
  length (List.filter (fun a => String.eqb (Article.url a) s) (articles db)).

(** The three ways a call of [create_from_newsapi] can end. *)
Inductive cfn_spec (env : Env) (now : Z) (r : pyval) (cfg : Z) (db : DB)
  : exn + (NewsArticle * bool) -> DB -> Prop :=
| cfn_raised e :
    cfn_spec env now r cfg db (inl e) db
| cfn_existing u dflt a :
    normalize r cfg = inr (u, dflt) ->
    get_by_url env u db = Some a ->
    cfn_spec env now r cfg db (inr (a, false)) db
| cfn_created u dflt a :
    normalize r cfg = inr (u, dflt) ->
    get_by_url env u db = None ->
    create env now u dflt db
      = (inr a, mkDB (configs db) (articles db ++ [a]) (next_article_id db + 1)) ->
    cfn_spec env now r cfg db (inr (a, true))
      (mkDB (configs db) (articles db ++ [a]) (next_article_id db + 1)).

Definition demo_env : Env :=
  mkEnv (fun v => match v with PNone => "None" | _ => "" end)
        (fun s => if String.eqb s "" then None else Some 1701424800000000)
        (fun _ => true)
        (fun _ _ _ => inl RequestException)
        (fun _ => "error") (fun _ => "cutoff") None.

Definition demo_clock : nat -> Z := fun i => 1762000000000000 + Z.of_nat i.

Definition demo_config : NewsSearchConfig :=
  mkConfig 1 "Tech" "ai" "us" "technology" "" "publishedAt" "daily" true 0 0 None.

(** Two active configurations and no article. *)
Definition demo_db0 : DB :=
  mkDB (<[2 := demo_config]> (<[1 := demo_config]> ∅)) [] 1.

Definition demo_record : list (string * pyval) :=
  [("source", PDict [("id", PStr "bbc-news"); ("name", PStr "BBC News")]);
   ("author", PStr "John Doe");
   ("title", PStr "Test Article Title");
   ("description", PNone);
   ("url", PStr "https://example.com/article");
   ("urlToImage", PNone);
   ("publishedAt", PStr "2023-12-01T10:00:00Z");
   ("content", PStr "This is the article content...")].

Definition demo_article : NewsArticle :=
  mkArticle 1 1 "Test Article Title" None "https://example.com/article" None
    1701424800000000 (Some "This is the article content...") (Some "bbc-news")
    "BBC News" (Some "John Doe") 1762000000000000 false.

(** The store after configuration 1 ingested [demo_record]. *)
Definition demo_db1 : DB :=
  mkDB (<[2 := demo_config]> (<[1 := demo_config]> ∅)) [demo_article] 2.

(** A record of the same URL that has no [title]. *)
Definition untitled_record : list (string * pyval) :=
  [("url", PStr "https://example.com/article");
   ("publishedAt", PStr "2023-12-01T10:00:00Z")].

Definition nosource_record : list (string * pyval) :=
  [("title", PStr "No Source Article");
   ("url", PStr "https://example.com/no-source");
   ("publishedAt", PStr "2023-12-01T10:00:00Z")].

Definition nosource_article : NewsArticle :=
  mkArticle 1 1 "No Source Article" None "https://example.com/no-source" None
    1701424800000000 None None "Unknown" None 1762000000000000 false.

(** An environment whose provider answers every request with [r]. *)
Definition env_with_response (r : exn + Response) : Env :=
  mkEnv (py_repr demo_env) (parse_datetime demo_env) (db_accepts demo_env)
        (fun _ _ _ => r) (exn_str demo_env) (isoformat demo_env) None.

(** The provider rejects the key: HTTP 401 with an error document. *)
Definition response_401 : Response :=
  mkResponse 401
    (inr (PDict [("status", PStr "error"); ("code", PStr "apiKeyInvalid");
                 ("message", PStr "Your API key is invalid or incorrect.")])).

(** The same error document under HTTP 200. *)
Definition response_200_error : Response :=
  mkResponse 200
    (inr (PDict [("status", PStr "error"); ("code", PStr "apiKeyInvalid");
                 ("message", PStr "Your API key is invalid or incorrect.")])).

(** A successful response with a good record, a record without a title and
    the good record again. *)
Definition response_200_ok : Response :=
  mkResponse 200
    (inr (PDict [("status", PStr "ok"); ("totalResults", PInt 3);
                 ("articles", PList [PDict demo_record; PDict untitled_record;
                                     PDict demo_record])])).

(** An article created at [created] and published at [published]. *)
Definition article_at (pk : Z) (u : string) (published created : Z) : NewsArticle :=
  mkArticle pk 1 "t" None u None published None None "s" None created false.

(** A record with every field of the provider, whose title is null. *)
Definition removed_record : list (string * pyval) :=
  [("source", PDict [("id", PNone); ("name", PStr "Example News")]);
   ("author", PNone);
   ("title", PNone);
   ("description", PNone);
   ("url", PStr "https://example.com/removed");
   ("urlToImage", PNone);
   ("publishedAt", PStr "2023-12-01T09:00:00Z");
   ("content", PNone)].

(** A batch whose first record cannot be stored. *)
Definition batch_with_bad_record : list (list (string * pyval)) :=
  [removed_record; demo_record].

(** [now] minus [n] days is a [datetime]: the window is a [timedelta] and
    the cutoff is in the range of the type. *)
Definition cutoff_fits (now n : Z) : Prop :=
  (-999999999 <= n <= 999999999)
  /\ datetime_min <= now - days_us n <= datetime_max.

(** Two articles published long ago, one created just before and one just
    at the cutoff of a 30-day sweep run at [demo_clock 0]. *)
Definition aged_db : DB :=
  mkDB ∅ [article_at 1 "a" 0 (demo_clock 0 - days_us 30 - 1);
          article_at 2 "b" 0 (demo_clock 0 - days_us 30)] 3.

(** ** The rest of [news_config/tasks.py] and [news_config/api.py] *)

(** [Meta.ordering = ["-created_at"]] of [NewsSearchConfig]: the row [x]
    may come before the row [y]. *)
Definition newer_config (x y : Z * NewsSearchConfig) : Prop :=
  created_at y.2 <= created_at x.2.

#[export] Instance newer_config_dec x y : Decision (newer_config x y).
Proof. unfold newer_config. apply _. Defined.

(** [Meta.ordering = ["-published_at"]] of [NewsArticle]. *)
Definition newer_article (x y : NewsArticle) : Prop :=
  Article.published_at y <= Article.published_at x.

#[export] Instance newer_article_dec x y : Decision (newer_article x y).
Proof. unfold newer_article. apply _. Defined.

(** [NewsSearchConfig.objects.filter(is_active=True)], evaluated: the rows
    with their keys, newest first. Rows of one [created_at] come in an
    order the backend chooses; here it is the one of the sort. *)
Definition active_configs (db : DB) : list (Z * NewsSearchConfig) :=
  merge_sort newer_config
    (List.filter (fun kc => is_active kc.2) (map_to_list (configs db))).

(** The calls handed to the broker by [fetch_news_for_config.delay]:
    the arguments [(config_id, news_api_key)] of each. *)
Definition task_queue : Type := list (Z * option string).

(** An entry of [results] in [fetch_news_for_all_active_configs]. *)
Definition scheduled_entry (config_id : Z) (config : NewsSearchConfig) (task_id : string)
  : pyval :=
  PDict [("config_id", PInt config_id); ("config_name", PStr (name config));
         ("task_id", PStr task_id); ("status", PStr "scheduled")].

(** The loop of [fetch_news_for_all_active_configs] (lines 130-145).
    [delay i] is what the [i]-th call of [fetch_news_for_config.delay]
    does: it raises, or the broker takes the call and gives its task id. *)
Fixpoint schedule_loop (delay : nat -> exn + string) (i : nat)
    (news_api_key : option string) (active : list (Z * NewsSearchConfig))
    (results : list pyval) (queue : task_queue) : (exn + list pyval) * task_queue :=
  match active with
  | [] => (inr results, queue)
  | (config_id, config) :: rest =>
      match delay i with
      | inl e => (inl e, queue)
      | inr task_id =>
          schedule_loop delay (S i) news_api_key rest
            (results ++ [scheduled_entry config_id config task_id])%list
            (queue ++ [(config_id, news_api_key)])%list
      end
  end.

(** [fetch_news_for_all_active_configs(self, news_api_key)]: the result
    dict and the queue of the broker. It reads the store and does not
    write to it. *)
Definition fetch_news_for_all_active_configs (env : Env) (delay : nat -> exn + string)
    (news_api_key : option string) (db : DB) (queue : task_queue)
  : gmap string pyval * task_queue :=
  let active := active_configs db in
  match active with
  | [] =>
      (<["configs_processed" := PInt 0]>
         (<["message" := PStr "No active configurations"]> ∅), queue)
  | _ :: _ =>
      match schedule_loop delay 0 news_api_key active [] queue with
      | (inr results, queue') =>
          let n := PInt (Z.of_nat (length results)) in
          (<["status" := PStr "success"]>
             (<["scheduled_tasks" := PList results]>
                (<["configs_processed" := n]>
                   (<["message" := PStr ("Scheduled news fetch for " ++ to_str env n
                                          ++ " configurations")]> ∅))), queue')
      | (inl e, queue') =>
          (error_result ("Error scheduling tasks: " ++ exn_str env e), queue')
      end
  end.

(** [get_object_or_404(NewsSearchConfig, id=config_id)] *)
Definition get_object_or_404 (config_id : Z) (db : DB) : exn + NewsSearchConfig :=
  match configs db !! config_id with
  | Some c => inr c
  | None => inl Http404
  end.

(** [list_configs(request)] *)
Definition list_configs (db : DB) : list (Z * NewsSearchConfig) := active_configs db.

(** [get_config(request, config_id)] *)
Definition get_config (config_id : Z) (db : DB) : exn + NewsSearchConfig :=
  get_object_or_404 config_id db.

(** The body of a request of [update_config]
    ([NewsSearchConfigCreateSchema]). *)
Record ConfigPayload : Type := mkConfigPayload {
  p_name : string;
  p_keywords : option string;
  p_country : string;
  p_category : string;
  p_sources : option string;
  p_sort_by : string;
  p_frequency : string;
  p_is_active : bool
}.

(** [update_config(request, config_id, payload)]: every field of the
    payload is set on the row and the row is saved whole, which stamps
    [updated_at] with the clock reading [now] ([auto_now]). [keywords] and
    [sources] are columns without [null=True]: a [None] is refused.
    [config_accepts] stands for the column checks of the backend. *)
Definition update_config (config_accepts : NewsSearchConfig -> bool) (now : Z)
    (config_id : Z) (payload : ConfigPayload) (db : DB)
  : (exn + NewsSearchConfig) * DB :=
  match get_object_or_404 config_id db with
  | inl e => (inl e, db)
  | inr config =>
      match p_keywords payload, p_sources payload with
      | Some kw, Some so =>
          let config' :=
            mkConfig (user config) (p_name payload) kw (p_country payload)
              (p_category payload) so (p_sort_by payload) (p_frequency payload)
              (p_is_active payload) (created_at config) now (last_executed config) in
          if config_accepts config'
          then (inr config',
                mkDB (<[config_id := config']> (configs db)) (articles db)
                     (next_article_id db))
          else (inl DataError, db)
      | _, _ => (inl IntegrityError, db)
      end
  end.

(** [delete_config(request, config_id)]: [config.delete()] removes the
    articles of the configuration ([on_delete=CASCADE]) and the row. *)
Definition delete_config (config_id : Z) (db : DB) : (exn + gmap string pyval) * DB :=
  match get_object_or_404 config_id db with
  | inl e => (inl e, db)
  | inr _ =>
      (inr {[ "success" := PBool true ]},
       mkDB (delete config_id (configs db))
            (List.filter (fun a => negb (Article.search_config a =? config_id)) (articles db))
            (next_article_id db))
  end.

(** [update_last_executed(request, config_id)]: [last_executed] is the
    reading [now] of [datetime.now()]; [config.save()] writes the whole row
    and stamps [updated_at] with its own reading [save_clock]. *)
Definition update_last_executed (now save_clock : Z) (config_id : Z) (db : DB)
  : (exn + NewsSearchConfig) * DB :=
  match get_object_or_404 config_id db with
  | inl e => (inl e, db)
  | inr config =>
      let config' :=
        mkConfig (user config) (name config) (keywords config) (country config)
          (category config) (sources config) (sort_by config) (frequency config)
          (is_active config) (created_at config) save_clock (Some now) in
      (inr config',
       mkDB (<[config_id := config']> (configs db)) (articles db) (next_article_id db))
  end.

(** [get_config_articles(request, config_id)]: [config.articles.all()] *)
Definition get_config_articles (config_id : Z) (db : DB) : exn + list NewsArticle :=
  match get_object_or_404 config_id db with
  | inl e => inl e
  | inr _ =>
      inr (merge_sort newer_article
             (List.filter (fun a => Article.search_config a =? config_id) (articles db)))
  end.

(** The body of a request of [create_article] ([NewsArticleCreateSchema]). *)
Record ArticlePayload : Type := mkArticlePayload {
  p_search_config_id : Z;
  p_title : string;
  p_description : option string;
  p_url : string;
  p_url_to_image : option string;
  p_published_at : string;
  p_content : option string;
  p_source_id : option string;
  p_source_name : string;
  p_author : option string
}.

(** An [Optional[str]] as a Python value. *)
Definition opt_str (o : option string) : pyval :=
  match o with
  | Some s => PStr s
  | None => PNone
  end.

(** [create_article(request, payload)] at the clock reading [now]. *)
Definition create_article (env : Env) (now : Z) (payload : ArticlePayload) (db : DB)
  : (exn + NewsArticle) * DB :=
  match get_object_or_404 (p_search_config_id payload) db with
  | inl e => (inl e, db)
  | inr _ =>
      match
        get_or_create env now (PStr (p_url payload))
          (mkDefaults (p_search_config_id payload) (PStr (p_title payload))
             (opt_str (p_description payload)) (opt_str (p_url_to_image payload))
             (PStr (p_published_at payload)) (opt_str (p_content payload))
             (opt_str (p_source_id payload)) (PStr (p_source_name payload))
             (opt_str (p_author payload))) db
      with
      | (inr (article, _), db') => (inr article, db')
      | (inl e, db') => (inl e, db')
      end
  end.

(** What slicing the queryset and running the query can raise: Django
    refuses a negative bound, the backend a [LIMIT] that is no 64-bit
    integer. *)
Inductive slice_error : Type :=
| NegativeIndexing
| LimitOutOfRange.

(** The largest [LIMIT] of the backend. *)
Definition limit_max : Z := 9223372036854775807.

(** [rows] as the backend may return them for [ORDER BY published_at
    DESC]: the same rows, the most recently published first, those of one
    [published_at] in any order. *)
Definition ordered_by_published (rows result : list NewsArticle) : Prop :=
  result ≡ₚ rows /\ StronglySorted newer_article result.

(** [list_articles(request, limit=50)]: [NewsArticle.objects.all()[:limit]];
    [None] stands for the parameter left out. [order_by rows] is what the
    backend returns for the ordered query over [rows]. *)
Definition list_articles (order_by : list NewsArticle -> list NewsArticle)
    (limit : option Z) (db : DB) : slice_error + list NewsArticle :=
  let limit := default 50 limit in
  if limit <? 0 then inl NegativeIndexing
  else if limit_max <? limit then inl LimitOutOfRange
  else inr (take (Z.to_nat limit) (order_by (articles db))).

(** ** Invariants of the store *)

(** Every article belongs to a stored configuration (the foreign key). *)
Definition fk_valid (db : DB) : Prop :=
  forall a, In a (articles db) -> is_Some (configs db !! Article.search_config a).

(** The keys of the articles are below the sequence. *)
Definition ids_fresh (db : DB) : Prop :=
  forall a, In a (articles db) -> Article.id a < next_article_id db.

(** The constraints of the article table. *)
Definition store_ok (db : DB) : Prop :=
  url_unique db /\ NoDup (map Article.id (articles db)) /\ ids_fresh db /\ fk_valid db.


(** ** Predicates and helpers of the further statements *)


(** Not a comma. *)
Definition not_comma (c : ascii) : bool := negb (Ascii.eqb c ",").

(** The first character of the string, if any, is not whitespace. *)
Definition starts_tight (s : string) : bool :=
  match s with
  | EmptyString => true
  | String c _ => negb (is_space c)
  end.

(** The last character of the string, if any, is not whitespace. *)
Fixpoint ends_tight (s : string) : bool :=
  match s with
  | EmptyString => true
  | String c EmptyString => negb (is_space c)
  | String _ r => ends_tight r
  end.

(** The shape of an entry of the list of sources. *)
Definition source_entry (s : string) : Prop :=
  s <> "" /\ string_forall not_comma s = true
  /\ starts_tight s = true /\ ends_tight s = true.

(** The environment with another [NEWS_API_KEY] in the settings. *)
Definition with_settings_key (k : option string) (env : Env) : Env :=
  mkEnv (py_repr env) (parse_datetime env) (db_accepts env) (requests_get env)
        (exn_str env) (isoformat env) k.

(** No usable key: the argument left out or empty. *)
Definition no_key (k : option string) : Prop := k = None \/ k = Some "".

(** An environment whose provider cannot be reached. *)
Definition env_unreachable : Env := env_with_response (inl RequestException).

(** A response whose document is a list, and one whose [articles] is null. *)
Definition response_200_list : Response := mkResponse 200 (inr (PList [])).

Definition response_200_null : Response :=
  mkResponse 200 (inr (PDict [("status", PStr "ok"); ("articles", PNone)])).

(** A configuration that is switched off, and a store that holds only it. *)
Definition inactive_config : NewsSearchConfig :=
  mkConfig 1 "Old" "" "uk" "business" "bbc-news" "relevancy" "weekly" false 5 5 None.

Definition demo_db_inactive : DB := mkDB (<[3 := inactive_config]> ∅) [] 1.

(** A request of [create_article] for the URL of [demo_article]. *)
Definition demo_payload : ArticlePayload :=
  mkArticlePayload 1 "Test Article Title" None "https://example.com/article" None
    "2023-12-01T10:00:00Z" (Some "This is the article content...") (Some "bbc-news")
    "BBC News" (Some "John Doe").

(** A request of [update_config] that switches the configuration off. *)
Definition demo_config_payload : ConfigPayload :=
  mkConfigPayload "Tech" (Some "ai") "us" "technology" (Some "") "publishedAt" "daily" false.

(** [demo_config] after that request, handled at the clock reading 9. *)
Definition demo_config_off : NewsSearchConfig :=
  mkConfig 1 "Tech" "ai" "us" "technology" "" "publishedAt" "daily" false 0 9 None.

(** A broker that takes the first call and refuses the second. *)
Definition broker_down_at_1 : nat -> exn + string :=
  fun i => match i with 1%nat => inl DatabaseError | _ => inr "task-0" end.

(** ** Properties of the Parameter Translator *)

Section Translator.

Implicit Types (self : NewsSearchConfig) (s : string).

Lemma str_truthy_true s : str_truthy s = true <-> s <> "".
Proof.
  unfold str_truthy. destruct (String.eqb_spec s ""); simpl; split; congruence.
Qed.

Lemma str_truthy_false s : str_truthy s = false <-> s = "".
Proof.
  unfold str_truthy. destruct (String.eqb_spec s ""); simpl; split; congruence.
Qed.

(** C2: with non-empty sources the translated parameters have neither the
    country key nor the category key; with empty sources they have both. *)
Theorem translator_exclusive self :
  (sources self <> "" ->
     get_newsapi_params self !! "country" = None
     /\ get_newsapi_params self !! "category" = None)
  /\ (sources self = "" ->
     get_newsapi_params self !! "country" = Some (PStr (country self))
     /\ get_newsapi_params self !! "category" = Some (PStr (category self))).
Proof.
  split; intros H.
  - apply str_truthy_true in H. unfold get_newsapi_params. rewrite H.
    destruct (str_truthy (keywords self)); split; reflexivity.
  - apply str_truthy_false in H. unfold get_newsapi_params. rewrite H.
    destruct (str_truthy (keywords self)); split; reflexivity.
Qed.

(** C7: the two example configurations translate to exactly the example
    parameters; the second has no country and no category key. *)
Theorem translator_examples (u : Z) (n f co ca : string) (a : bool) (c_at u_at : Z)
    (le : option Z) :
  get_newsapi_params (mkConfig u n "ai" "us" "technology" "" "publishedAt" f a c_at u_at le)
  = <["country" := PStr "us"]> (<["category" := PStr "technology"]>
      (<["sortBy" := PStr "publishedAt"]> (<["q" := PStr "ai"]> ∅)))
  /\ get_newsapi_params
       (mkConfig u n "breaking" co ca "bbc-news,cnn" "publishedAt" f a c_at u_at le)
     = <["sortBy" := PStr "publishedAt"]> (<["q" := PStr "breaking"]>
         (<["sources" := PStr "bbc-news,cnn"]> ∅))
  /\ get_newsapi_params
       (mkConfig u n "breaking" co ca "bbc-news,cnn" "publishedAt" f a c_at u_at le)
       !! "country" = None
  /\ get_newsapi_params
       (mkConfig u n "breaking" co ca "bbc-news,cnn" "publishedAt" f a c_at u_at le)
       !! "category" = None.
Proof. repeat split; vm_compute; reflexivity. Qed.

End Translator.

Lemma translator_exclusive_witness :
  (get_newsapi_params (config_with "ai" "us" "technology" "bbc-news,cnn") !! "country" = None
   /\ get_newsapi_params (config_with "ai" "us" "technology" "bbc-news,cnn") !! "category" = None)
  /\ (get_newsapi_params (config_with "ai" "us" "technology" "") !! "country" = Some (PStr "us")
      /\ get_newsapi_params (config_with "ai" "us" "technology" "") !! "category"
         = Some (PStr "technology")).
Proof.
  split.
  - apply (proj1 (translator_exclusive (config_with "ai" "us" "technology" "bbc-news,cnn"))).
    discriminate.
  - apply (proj2 (translator_exclusive (config_with "ai" "us" "technology" ""))).
    reflexivity.
Defined.

(** The cases of [tests/test_models.py] for the two methods. *)
Example test_get_sources_list :
  get_sources_list (config_with "" "us" "general" "bbc-news,cnn,techcrunch")
  = ["bbc-news"; "cnn"; "techcrunch"]
  /\ get_sources_list (config_with "" "us" "general" "") = []
  /\ get_sources_list (config_with "" "us" "general" " bbc-news , ,cnn,") = ["bbc-news"; "cnn"].
Proof. repeat split; vm_compute; reflexivity. Qed.

Section Blank.

Lemma lstrip_blank s : string_forall is_space s = true -> lstrip s = "".
Proof.
  induction s as [|c r IH]; simpl; [reflexivity|].
  intros [Hc Hr]%andb_prop. rewrite Hc. auto.
Qed.

Lemma strip_blank s : string_forall is_space s = true -> strip s = "".
Proof. intros H. unfold strip. rewrite lstrip_blank by assumption. reflexivity. Qed.

Lemma split_nonempty sep s : split sep s <> [].
Proof.
  destruct s as [|c r]; simpl; [discriminate|].
  destruct (Ascii.eqb c sep); [discriminate|].
  destruct (split sep r); discriminate.
Qed.

Lemma split_blank_segments s :
  string_forall comma_or_space s = true ->
  Forall (fun seg => string_forall is_space seg = true) (split "," s).
Proof.
  induction s as [|c r IH]; simpl.
  - intros _. repeat constructor.
  - intros [Hc Hr]%andb_prop. specialize (IH Hr).
    unfold comma_or_space in Hc.
    destruct (Ascii.eqb c ",") eqn:E.
    + constructor; [reflexivity | assumption].
    + simpl in Hc. destruct (split "," r) as [|h t] eqn:Es.
      * exfalso. eapply split_nonempty; eassumption.
      * inversion IH; subst. constructor; [|assumption].
        simpl. rewrite Hc. assumption.
Qed.

Lemma filter_blank_segments l :
  Forall (fun seg => string_forall is_space seg = true) l ->
  List.filter (fun s => str_truthy (strip s)) l = [].
Proof.
  induction 1 as [|seg l Hseg _ IH]; simpl; [reflexivity|].
  rewrite (strip_blank _ Hseg). simpl. exact IH.
Qed.

(** C10: sources made only of commas and whitespace is still a non-empty
    string: country and category are dropped and the sources key holds the
    empty string. *)
Theorem blank_sources_key self :
  sources self <> "" ->
  string_forall comma_or_space (sources self) = true ->
  get_newsapi_params self !! "country" = None
  /\ get_newsapi_params self !! "category" = None
  /\ get_newsapi_params self !! "sources" = Some (PStr "").
Proof.
  intros Hne Hblank.
  assert (Hl : get_sources_list self = []).
  { unfold get_sources_list. destruct (str_truthy (sources self)); [|reflexivity].
    rewrite filter_blank_segments by (apply split_blank_segments; assumption).
    reflexivity. }
  apply str_truthy_true in Hne. unfold get_newsapi_params. rewrite Hne, Hl.
  destruct (str_truthy (keywords self)); repeat split; reflexivity.
Qed.

Lemma blank_sources_key_witness :
  get_newsapi_params (config_with "" "us" "general" " , ") !! "country" = None
  /\ get_newsapi_params (config_with "" "us" "general" " , ") !! "category" = None
  /\ get_newsapi_params (config_with "" "us" "general" " , ") !! "sources" = Some (PStr "").
Proof.
  apply (blank_sources_key (config_with "" "us" "general" " , ")).
  - discriminate.
  - reflexivity.
Defined.

End Blank.

(** ** Properties of [create_from_newsapi] *)

Section CreateFromNewsapi.

Context (env : Env).
Implicit Types (db : DB) (a : NewsArticle) (d : list (string * pyval)) (s : string).

Lemma readable_normalize d cfg :
  readable d = true ->
  exists u dflt, assoc "url" d = Some u /\ normalize (PDict d) cfg = inr (u, dflt).
Proof.
  unfold readable, normalize, source_id_of, source_name_of. simpl.
  destruct (assoc "url" d) as [u|]; [|discriminate].
  destruct (assoc "title" d) as [t|]; [|discriminate].
  destruct (assoc "publishedAt" d) as [p|]; [|discriminate].
  destruct (assoc "source" d) as [src|]; simpl.
  - destruct (truthy src) eqn:Ht; simpl.
    + destruct src as [| | | |l|sd]; try discriminate.
      unfold getitem. destruct (assoc "name" sd) as [n|]; [|discriminate]. simpl.
      intros _. eauto.
    + intros _. eauto.
  - intros _. eauto.
Qed.

Lemma unreadable_normalize d cfg :
  readable d = false -> exists e, normalize (PDict d) cfg = inl e.
Proof.
  unfold readable, normalize, source_id_of, source_name_of. simpl.
  destruct (assoc "url" d) as [u|]; simpl; [|eauto].
  destruct (assoc "title" d) as [t|]; simpl; [|eauto].
  destruct (assoc "publishedAt" d) as [p|]; simpl; [|eauto].
  destruct (assoc "source" d) as [src|]; simpl; [|discriminate].
  destruct (truthy src) eqn:Ht; simpl; [|discriminate].
  destruct src as [| | | |l|sd]; simpl; eauto.
  destruct (assoc "name" sd) as [n|]; simpl; [discriminate|eauto].
Qed.

Lemma find_url_Some s l a :
  find (fun a => String.eqb (Article.url a) s) l = Some a ->
  In a l /\ Article.url a = s.
Proof.
  intros H. apply find_some in H as [Hin Heq].
  split; [assumption|]. apply String.eqb_eq. assumption.
Qed.

Lemma find_url_None s l :
  find (fun a => String.eqb (Article.url a) s) l = None -> ~ In s (map Article.url l).
Proof.
  intros H Hin. apply in_map_iff in Hin as (a & Ha & Hin).
  apply (find_none _ _ H) in Hin. simpl in Hin.
  rewrite <- Ha, String.eqb_refl in Hin. discriminate.
Qed.

Lemma find_url_In s l :
  In s (map Article.url l) ->
  exists a, find (fun a => String.eqb (Article.url a) s) l = Some a.
Proof.
  intros Hin.
  destruct (find (fun a => String.eqb (Article.url a) s) l) eqn:E; [eauto|].
  apply find_url_None in E. contradiction.
Qed.

(** What a call of [create] that succeeds has done. *)
Lemma create_inr now u dflt db a db' :
  create env now u dflt db = (inr a, db') ->
  db' = mkDB (configs db) (articles db ++ [a]) (next_article_id db + 1)
  /\ char_to_python env u = Some (Article.url a)
  /\ Article.search_config a = d_search_config dflt
  /\ char_to_python env (d_source_name dflt) = Some (Article.source_name a)
  /\ Article.source_id a = char_to_python env (d_source_id dflt)
  /\ Article.created_at a = now.
Proof.
  unfold create.
  destruct (datetime_to_python env (d_published_at dflt)) as [e|pa]; [discriminate|].
  destruct (configs db !! d_search_config dflt); [|discriminate].
  destruct (char_to_python env (d_title dflt)) as [t|]; [|discriminate].
  destruct (char_to_python env u) as [u'|]; [|discriminate].
  destruct pa as [p|]; [|discriminate].
  destruct (char_to_python env (d_source_name dflt)) as [sn|]; [|discriminate].
  destruct (db_accepts env _); [|discriminate].
  intros [= <- <-]. simpl. repeat split; reflexivity.
Qed.

(** A call of [create] that raises leaves the store as it was. *)
Lemma create_inl now u dflt db e db' :
  create env now u dflt db = (inl e, db') -> db' = db.
Proof.
  unfold create.
  destruct (datetime_to_python env (d_published_at dflt)) as [e'|pa]; [congruence|].
  destruct (configs db !! d_search_config dflt); [|congruence].
  destruct (char_to_python env (d_title dflt)) as [t|]; [|congruence].
  destruct (char_to_python env u) as [u'|]; [|congruence].
  destruct pa as [p|]; [|congruence].
  destruct (char_to_python env (d_source_name dflt)) as [sn|]; [|congruence].
  destruct (db_accepts env _); congruence.
Qed.

Lemma cfn_cases now r cfg db :
  cfn_spec env now r cfg db (create_from_newsapi env now r cfg db).1
                        (create_from_newsapi env now r cfg db).2.
Proof.
  unfold create_from_newsapi.
  destruct (normalize r cfg) as [e|[u dflt]] eqn:En; simpl; [constructor|].
  unfold get_or_create.
  destruct (get_by_url env u db) as [a|] eqn:Eg; simpl.
  - econstructor; eassumption.
  - destruct (create env now u dflt db) as [[e|a] db'] eqn:Ec; simpl.
    + apply create_inl in Ec as ->. constructor.
    + pose proof (create_inr _ _ _ _ _ _ Ec) as (-> & _).
      econstructor; eassumption.
Qed.

End CreateFromNewsapi.

Section Dedup.

Context (env : Env).
Implicit Types (db : DB) (a : NewsArticle) (d : list (string * pyval)) (s : string).

Lemma cfn_configs now r cfg db :
  configs (create_from_newsapi env now r cfg db).2 = configs db.
Proof. destruct (cfn_cases env now r cfg db); reflexivity. Qed.

Lemma get_by_url_str s db : In s (urls db) -> exists a, get_by_url env (PStr s) db = Some a.
Proof. intros H. unfold get_by_url. simpl. apply find_url_In. exact H. Qed.

Lemma get_by_url_Some u db a :
  get_by_url env u db = Some a ->
  In a (articles db) /\ char_to_python env u = Some (Article.url a).
Proof.
  unfold get_by_url. destruct (char_to_python env u) as [s|]; [|discriminate].
  intros [Hin <-]%find_url_Some. auto.
Qed.

Lemma get_by_url_fresh u db s :
  get_by_url env u db = None -> char_to_python env u = Some s -> ~ In s (urls db).
Proof.
  unfold get_by_url. intros H E. rewrite E in H. apply find_url_None in H. exact H.
Qed.

Lemma find_url_app_new s l a :
  ~ In s (map Article.url l) -> Article.url a = s ->
  find (fun a => String.eqb (Article.url a) s) (l ++ [a]) = Some a.
Proof.
  intros Hfresh Ha. induction l as [|b l IH]; simpl.
  - rewrite Ha, String.eqb_refl. reflexivity.
  - destruct (String.eqb_spec (Article.url b) s) as [E|E].
    + exfalso. apply Hfresh. left. exact E.
    + apply IH. intros H. apply Hfresh. right. exact H.
Qed.

(** The [unique] constraint on the URL survives every call. *)
Lemma cfn_url_unique now r cfg db :
  url_unique db -> url_unique (create_from_newsapi env now r cfg db).2.
Proof.
  intros Hu. destruct (cfn_cases env now r cfg db) as [e|u dflt a Hn Hg|u dflt a Hn Hg Hc];
    try assumption.
  apply create_inr in Hc as (_ & Hurl & _).
  pose proof (get_by_url_fresh _ _ _ Hg Hurl) as Hfresh.
  unfold url_unique, urls in *. simpl. rewrite map_app. simpl.
  apply NoDup_ListNoDup, List.NoDup_app; repeat split.
  - apply NoDup_ListNoDup. exact Hu.
  - repeat constructor. intros [].
  - intros x Hx [<-|[]]. exact (Hfresh Hx).
Qed.

Lemma stored_once l a :
  List.NoDup (map Article.url l) -> In a l ->
  length (List.filter (fun b => String.eqb (Article.url b) (Article.url a)) l) = 1%nat.
Proof.
  induction l as [|b l IH]; simpl; [intros _ []|].
  intros Hnd Hin. inversion Hnd as [|x xs Hnotin Hnd']; subst.
  destruct (String.eqb_spec (Article.url b) (Article.url a)) as [E|E].
  - simpl. f_equal.
    assert (Hnone : forall c, In c l -> String.eqb (Article.url c) (Article.url a) = false).
    { intros c Hc. apply String.eqb_neq. intros Ec. apply Hnotin.
      rewrite E, <- Ec. apply in_map. exact Hc. }
    clear -Hnone. induction l as [|c l IH]; simpl; [reflexivity|].
    rewrite (Hnone c) by (left; reflexivity). apply IH.
    intros c' Hc'. apply Hnone. right. exact Hc'.
  - destruct Hin as [->|Hin]; [congruence|]. apply IH; assumption.
Qed.

(** Which configuration ingests does not change what is read as the URL. *)
Lemma normalize_any_config r cfg cfg' u dflt :
  normalize r cfg = inr (u, dflt) -> exists dflt', normalize r cfg' = inr (u, dflt').
Proof.
  unfold normalize.
  destruct (getitem r "url"); simpl; [discriminate|].
  destruct (getitem r "title"); simpl; [discriminate|].
  destruct (get r "description"); simpl; [discriminate|].
  destruct (get r "urlToImage"); simpl; [discriminate|].
  destruct (getitem r "publishedAt"); simpl; [discriminate|].
  destruct (get r "content"); simpl; [discriminate|].
  destruct (source_id_of r); simpl; [discriminate|].
  destruct (source_name_of r); simpl; [discriminate|].
  destruct (get r "author"); simpl; [discriminate|].
  intros [= <- _]. eauto.
Qed.

(** A call that succeeded is answered by the same row, as a duplicate, from
    then on. *)
Lemma cfn_again now now' r cfg cfg' db a created db1 :
  create_from_newsapi env now r cfg db = (inr (a, created), db1) ->
  In a (articles db1)
  /\ create_from_newsapi env now' r cfg' db1 = (inr (a, false), db1).
Proof.
  intros H. pose proof (cfn_cases env now r cfg db) as Hc. rewrite H in Hc. simpl in Hc.
  inversion Hc as [|u dflt a' Hn Hg|u dflt a' Hn Hg Hcr]; subst.
  - split; [apply (get_by_url_Some _ _ _ Hg)|].
    unfold create_from_newsapi in *.
    destruct (normalize r cfg) as [e|[u1 d1]] eqn:E1; [discriminate|].
    destruct (normalize_any_config _ _ cfg' _ _ E1) as [d2 ->].
    injection Hn as -> ->. unfold get_or_create. rewrite Hg. reflexivity.
  - split; [simpl; apply in_or_app; right; left; reflexivity|].
    apply create_inr in Hcr as (_ & Hurl & _).
    pose proof (get_by_url_fresh _ _ _ Hg Hurl) as Hfresh.
    unfold create_from_newsapi in *.
    destruct (normalize r cfg) as [e|[u1 d1]] eqn:E1; [discriminate|].
    destruct (normalize_any_config _ _ cfg' _ _ E1) as [d2 ->].
    injection Hn as -> ->. unfold get_or_create, get_by_url. rewrite Hurl. simpl.
    rewrite find_url_app_new by (exact Hfresh || reflexivity). reflexivity.
Qed.

End Dedup.

Section DedupClaim.

Context (env : Env).

Lemma normalize_url d cfg u dflt s :
  assoc "url" d = Some (PStr s) -> normalize (PDict d) cfg = inr (u, dflt) -> u = PStr s.
Proof.
  intros Hurl. unfold normalize. simpl. rewrite Hurl. simpl.
  destruct (assoc "title" d); simpl; [|discriminate].
  destruct (assoc "publishedAt" d); simpl; [|discriminate].
  destruct (source_id_of (PDict d)); simpl; [discriminate|].
  destruct (source_name_of (PDict d)); simpl; [discriminate|].
  intros [= <- _]. reflexivity.
Qed.

Example demo_first_ingestion :
  create_from_newsapi demo_env (demo_clock 0) (PDict demo_record) 1 demo_db0
  = (inr (demo_article, true), demo_db1).
Proof. vm_compute. reflexivity. Qed.

(** C1 (as stated) fails: a record whose URL is stored but which carries no
    title is neither stored nor counted as a duplicate; the loop skips it
    as a failed record. *)
Lemma url_dedup_counterexample :
  In "https://example.com/article" (urls demo_db1)
  /\ getitem (PDict untitled_record) "url" = inr (PStr "https://example.com/article")
  /\ process_articles demo_env demo_clock 0 2 [PDict untitled_record] 0 0 demo_db1
     = ((0, 0), demo_db1).
Proof. split; [left; reflexivity|]. split; vm_compute; reflexivity. Qed.

(** C1 (amended): a record whose URL is stored never changes the store,
    whichever configuration ingests it; when its fields can be read it is
    answered with the stored row and counted as a duplicate, otherwise it
    is skipped and not counted; and a record ingested once with success is,
    on its second ingestion, a duplicate of the one row stored under its
    URL. *)
Theorem url_dedup (now : Z) (cfg : Z) (d : list (string * pyval)) (s : string) (db : DB) :
  assoc "url" d = Some (PStr s) ->
  (In s (urls db) ->
     (create_from_newsapi env now (PDict d) cfg db).2 = db
     /\ (readable d = true ->
         (exists a, In a (articles db) /\ Article.url a = s
                    /\ create_from_newsapi env now (PDict d) cfg db = (inr (a, false), db))
         /\ forall clock i created_count duplicate_count,
             process_articles env clock i cfg [PDict d] created_count duplicate_count db
             = ((created_count, duplicate_count + 1), db))
     /\ (readable d = false ->
         forall clock i created_count duplicate_count,
           process_articles env clock i cfg [PDict d] created_count duplicate_count db
           = ((created_count, duplicate_count), db)))
  /\ (forall a created db1,
        url_unique db ->
        create_from_newsapi env now (PDict d) cfg db = (inr (a, created), db1) ->
        stored_with_url s db1 = 1%nat
        /\ forall clock i cfg',
            process_articles env clock i cfg' [PDict d] 0 0 db1 = ((0, 1), db1)).
Proof.
  intros Hurl. split.
  - intros Hin.
    assert (Hdup : forall u dflt, normalize (PDict d) cfg = inr (u, dflt) ->
              exists a, In a (articles db) /\ Article.url a = s
                        /\ create_from_newsapi env now (PDict d) cfg db = (inr (a, false), db)).
    { intros u dflt Hn.
      assert (u = PStr s) as -> by (eapply normalize_url; eassumption).
      destruct (get_by_url_str env s db Hin) as [a Ha].
      exists a. destruct (get_by_url_Some env _ _ _ Ha) as [Hina Hu].
      simpl in Hu. injection Hu as Hu.
      repeat split; [assumption|congruence|].
      unfold create_from_newsapi, get_or_create. rewrite Hn, Ha. reflexivity. }
    split; [|split].
    + unfold create_from_newsapi.
      destruct (normalize (PDict d) cfg) as [e|[u dflt]] eqn:Hn; [reflexivity|].
      destruct (Hdup u dflt eq_refl) as (a & _ & _ & Hc).
      unfold create_from_newsapi in Hc. rewrite Hn in Hc. rewrite Hc. reflexivity.
    + intros Hr. destruct (readable_normalize d cfg Hr) as (u & dflt & _ & Hn).
      destruct (Hdup u dflt Hn) as (a & Hina & Hua & Hc).
      split; [eauto|]. intros clock i c1 c2. simpl.
      destruct (cfn_again env now (clock i) _ cfg cfg _ _ _ _ Hc) as [_ ->]. reflexivity.
    + intros Hr clock i c1 c2. destruct (unreadable_normalize d cfg Hr) as [e He].
      simpl. unfold create_from_newsapi. rewrite He. reflexivity.
  - intros a created db1 Huniq Hc.
    destruct (cfn_again env now now _ cfg cfg _ _ _ _ Hc) as [Hina _].
    assert (Hua : Article.url a = s).
    { pose proof (cfn_cases env now (PDict d) cfg db) as Hs. rewrite Hc in Hs. simpl in Hs.
      pose proof (normalize_url d cfg) as Hu. specialize (fun u dflt => Hu u dflt s Hurl).
      inversion Hs as [|u dflt a' Hn Hg|u dflt a' Hn Hg Hcr]; subst.
      - apply Hu in Hn as ->. apply get_by_url_Some in Hg as [_ Hg]. simpl in Hg. congruence.
      - apply Hu in Hn as ->. apply create_inr in Hcr as (_ & Hcr & _). simpl in Hcr. congruence. }
    split.
    + unfold stored_with_url. rewrite <- Hua. apply stored_once; [|exact Hina].
      pose proof (cfn_url_unique env now (PDict d) cfg db Huniq) as Hu1.
      rewrite Hc in Hu1. apply NoDup_ListNoDup. exact Hu1.
    + intros clock i cfg'. simpl.
      destruct (cfn_again env now (clock i) _ cfg cfg' _ _ _ _ Hc) as [_ ->]. reflexivity.
Qed.

End DedupClaim.

(** [demo_record], first ingested by configuration 1, is a duplicate for
    configuration 2. *)
Lemma url_dedup_witness :
  (create_from_newsapi demo_env 5 (PDict demo_record) 2 demo_db1).2 = demo_db1
  /\ process_articles demo_env demo_clock 0 2 [PDict demo_record] 0 0 demo_db1
     = ((0, 1), demo_db1)
  /\ stored_with_url "https://example.com/article" demo_db1 = 1%nat.
Proof.
  destruct (url_dedup demo_env 5 2 demo_record "https://example.com/article" demo_db1 eq_refl)
    as [H1 _].
  destruct (H1 (or_introl eq_refl)) as (Hsame & Hread & _).
  destruct (Hread eq_refl) as [_ Hloop].
  destruct (url_dedup demo_env (demo_clock 0) 1 demo_record "https://example.com/article"
              demo_db0 eq_refl) as [_ H2].
  destruct (H2 demo_article true demo_db1) as [Hone _].
  - unfold url_unique. simpl. constructor.
  - vm_compute. reflexivity.
  - split; [exact Hsame|]. split; [apply (Hloop demo_clock 0%nat 0 0)|exact Hone].
Defined.

Section SourceClaim.

Context (env : Env).

Lemma normalize_source d cfg u dflt :
  normalize (PDict d) cfg = inr (u, dflt) ->
  source_id_of (PDict d) = inr (d_source_id dflt)
  /\ source_name_of (PDict d) = inr (d_source_name dflt).
Proof.
  unfold normalize. simpl.
  destruct (assoc "url" d); simpl; [|discriminate].
  destruct (assoc "title" d); simpl; [|discriminate].
  destruct (assoc "publishedAt" d); simpl; [|discriminate].
  destruct (source_id_of (PDict d)); simpl; [discriminate|].
  destruct (source_name_of (PDict d)); simpl; [discriminate|].
  intros [= _ <-]. simpl. auto.
Qed.

(** C6: a record without a source object is stored with the source name
    "Unknown" and no source id; a source object with a name gives its name
    and its id (null or a string) as they are. *)
Theorem source_normalization (now cfg : Z) (d : list (string * pyval)) (db db' : DB)
    (a : NewsArticle) :
  create_from_newsapi env now (PDict d) cfg db = (inr (a, true), db') ->
  In a (articles db')
  /\ (assoc "source" d = None \/ assoc "source" d = Some PNone ->
      Article.source_name a = "Unknown" /\ Article.source_id a = None)
  /\ (forall sd n,
        assoc "source" d = Some (PDict sd) -> assoc "name" sd = Some (PStr n) ->
        Article.source_name a = n
        /\ (assoc "id" sd = None \/ assoc "id" sd = Some PNone -> Article.source_id a = None)
        /\ (forall i, assoc "id" sd = Some (PStr i) -> Article.source_id a = Some i)).
Proof.
  intros Hc. destruct (cfn_again env now now _ cfg cfg _ _ _ _ Hc) as [Hin _].
  split; [exact Hin|].
  pose proof (cfn_cases env now (PDict d) cfg db) as Hs. rewrite Hc in Hs. simpl in Hs.
  inversion Hs as [| |u dflt a' Hn Hg Hcr]; subst.
  apply create_inr in Hcr as (_ & _ & _ & Hname & Hid & _).
  apply normalize_source in Hn as [Hsi Hsn].
  unfold source_id_of, source_name_of in Hsi, Hsn. simpl in Hsi, Hsn.
  split.
  - intros Hsrc.
    assert (Hd : default PNone (assoc "source" d) = PNone) by (destruct Hsrc as [-> | ->]; reflexivity).
    rewrite Hd in Hsi, Hsn. simpl in Hsi, Hsn.
    injection Hsi as Hsi. injection Hsn as Hsn.
    rewrite <- Hsi in Hid. rewrite <- Hsn in Hname. simpl in Hname, Hid.
    split; congruence.
  - intros sd n Hsrc Hn. rewrite Hsrc in Hsi, Hsn. simpl in Hsi, Hsn.
    assert (Ht : match sd with [] => false | _ :: _ => true end = true)
      by (destruct sd; [discriminate Hn | reflexivity]).
    rewrite Ht in Hsi, Hsn. simpl in Hsi, Hsn. rewrite Hn in Hsn.
    simpl in Hsn. injection Hsi as Hsi. injection Hsn as Hsn.
    rewrite <- Hsi in Hid. rewrite <- Hsn in Hname. simpl in Hname.
    split; [congruence|]. split.
    + intros [Hi | Hi]; rewrite Hid, Hi; reflexivity.
    + intros i Hi. rewrite Hid, Hi. reflexivity.
Qed.

End SourceClaim.

Lemma source_normalization_witness :
  In nosource_article
     (articles (create_from_newsapi demo_env (demo_clock 0) (PDict nosource_record) 1 demo_db0).2)
  /\ (Article.source_name nosource_article = "Unknown"
      /\ Article.source_id nosource_article = None)
  /\ (Article.source_name demo_article = "BBC News"
      /\ Article.source_id demo_article = Some "bbc-news").
Proof.
  destruct (source_normalization demo_env (demo_clock 0) 1 nosource_record demo_db0
              (create_from_newsapi demo_env (demo_clock 0) (PDict nosource_record) 1 demo_db0).2
              nosource_article) as (Hin & Hno & _).
  { vm_compute. reflexivity. }
  destruct (source_normalization demo_env (demo_clock 0) 1 demo_record demo_db0 demo_db1
              demo_article) as (_ & _ & Hsrc).
  { vm_compute. reflexivity. }
  destruct (Hsrc [("id", PStr "bbc-news"); ("name", PStr "BBC News")] "BBC News"
              eq_refl eq_refl) as (Hn & _ & Hi).
  split; [exact Hin|]. split; [exact (Hno (or_introl eq_refl))|].
  split; [exact Hn | exact (Hi "bbc-news" eq_refl)].
Defined.

(** ** Properties of [fetch_news_for_config] *)

Section Fetch.

Context (env : Env).
Implicit Types (db : DB) (c : NewsSearchConfig).

Lemma process_articles_configs clock config_id records i n m db :
  configs (process_articles env clock i config_id records n m db).2 = configs db.
Proof.
  revert i n m db. induction records as [|r rest IH]; intros i n m db; simpl; [reflexivity|].
  pose proof (cfn_configs env (clock i) r config_id db) as Hc.
  destruct (create_from_newsapi env (clock i) r config_id db) as [[e|[a [|]]] db1];
    simpl in Hc; rewrite IH; exact Hc.
Qed.

(** C3: a configuration that is missing or inactive gives the result
    "Configuration not found or inactive": nothing is raised, no retry is
    asked for, and the store is as it was. *)
Theorem unavailable_config (retries : Z) (clock : nat -> Z) (end_clock config_id : Z)
    (news_api_key : option string) db :
  configs db !! config_id = None
  \/ (exists c, configs db !! config_id = Some c /\ is_active c = false) ->
  fetch_news_for_config env retries clock end_clock config_id news_api_key db
  = (Returned (error_result "Configuration not found or inactive"), db).
Proof.
  intros H. unfold fetch_news_for_config, fetch_try, get_active_config.
  destruct H as [-> | (c & -> & ->)]; reflexivity.
Qed.

Lemma process_articles_counts clock cfg records i n m db :
  n <= (process_articles env clock i cfg records n m db).1.1
  /\ m <= (process_articles env clock i cfg records n m db).1.2
  /\ (process_articles env clock i cfg records n m db).1.1 - n
     + ((process_articles env clock i cfg records n m db).1.2 - m)
     <= Z.of_nat (length records).
Proof.
  revert i n m db. induction records as [|r rest IH]; intros i n m db.
  - simpl. lia.
  - cbn [process_articles length].
    destruct (create_from_newsapi env (clock i) r cfg db) as [[e|[a [|]]] db1].
    + specialize (IH (S i) n m db1). lia.
    + specialize (IH (S i) (n + 1) m db1). lia.
    + specialize (IH (S i) n (m + 1) db1). lia.
Qed.

Lemma process_articles_app clock cfg l1 l2 i n m db :
  process_articles env clock i cfg (l1 ++ l2) n m db
  = process_articles env clock (i + length l1) cfg l2
      (process_articles env clock i cfg l1 n m db).1.1
      (process_articles env clock i cfg l1 n m db).1.2
      (process_articles env clock i cfg l1 n m db).2.
Proof.
  revert i n m db. induction l1 as [|r rest IH]; intros i n m db.
  - simpl. rewrite Nat.add_0_r. reflexivity.
  - cbn [app process_articles length].
    destruct (create_from_newsapi env (clock i) r cfg db) as [[e|[a [|]]] db1];
      rewrite IH, Nat.add_succ_r; reflexivity.
Qed.

(** A record that raises is passed over: the loop goes on with the next
    record, the counters and the store as they were. *)
Lemma process_articles_skip clock cfg r rest i n m db e :
  (create_from_newsapi env (clock i) r cfg db).1 = inl e ->
  process_articles env clock i cfg (r :: rest) n m db
  = process_articles env clock (S i) cfg rest n m db.
Proof.
  intros H. cbn [process_articles].
  pose proof (cfn_cases env (clock i) r cfg db) as Hs.
  destruct (create_from_newsapi env (clock i) r cfg db) as [[e0|[a b]] db1];
    simpl in H; [|discriminate].
  simpl in Hs. inversion Hs; subst. reflexivity.
Qed.

(** One turn of the loop, at any place of the batch: the record is created,
    found or raises, and in each case the loop goes on with the rest. *)
Lemma process_articles_step clock cfg pre r post n m db :
  process_articles env clock 0 cfg (pre ++ r :: post) n m db
  = match create_from_newsapi env (clock (length pre)) r cfg
            (process_articles env clock 0 cfg pre n m db).2 with
    | (inr (_, true), db') =>
        process_articles env clock (S (length pre)) cfg post
          ((process_articles env clock 0 cfg pre n m db).1.1 + 1)
          (process_articles env clock 0 cfg pre n m db).1.2 db'
    | (inr (_, false), db') =>
        process_articles env clock (S (length pre)) cfg post
          (process_articles env clock 0 cfg pre n m db).1.1
          ((process_articles env clock 0 cfg pre n m db).1.2 + 1) db'
    | (inl _, _) =>
        process_articles env clock (S (length pre)) cfg post
          (process_articles env clock 0 cfg pre n m db).1.1
          (process_articles env clock 0 cfg pre n m db).1.2
          (process_articles env clock 0 cfg pre n m db).2
    end.
Proof.
  rewrite process_articles_app. simpl Nat.add.
  destruct (process_articles env clock 0 cfg pre n m db) as [[n1 m1] db1]. simpl.
  pose proof (cfn_cases env (clock (length pre)) r cfg db1) as Hs.
  destruct (create_from_newsapi env (clock (length pre)) r cfg db1) as [[e|[a [|]]] db2];
    try reflexivity.
  simpl in Hs. inversion Hs; subst. reflexivity.
Qed.

(** When every record raises, the loop changes nothing. *)
Lemma process_articles_all_raise clock cfg records n m db :
  (forall pre r post,
     records = (pre ++ r :: post)%list ->
     exists e, (create_from_newsapi env (clock (length pre)) r cfg db).1 = inl e) ->
  process_articles env clock 0 cfg records n m db = ((n, m), db).
Proof.
  induction records as [|r rest IH] using rev_ind; intros Hall; [reflexivity|].
  rewrite process_articles_step, IH.
  - simpl. destruct (Hall rest r [] eq_refl) as [e He].
    destruct (create_from_newsapi env (clock (length rest)) r cfg db) as [[e0|[a b]] db2];
      [reflexivity|discriminate].
  - intros pre r' post ->. apply (Hall pre r' (post ++ [r])%list).
    rewrite <- app_assoc. reflexivity.
Qed.

(** The run up to the status check, for a response that passes
    [raise_for_status] and decodes to a JSON object. *)
Lemma fetch_try_responded clock end_clock config_id news_api_key db c api_key resp body :
  configs db !! config_id = Some c -> is_active c = true ->
  str_or news_api_key (NEWS_API_KEY env) = Some api_key -> str_truthy api_key = true ->
  requests_get env endpoint (request_params c api_key) 30 = inr resp ->
  ~ (400 <= status_code resp < 600) ->
  json resp = inr (PDict body) ->
  fetch_try env clock end_clock config_id news_api_key db
  = if not_ok (default PNone (assoc "status" body)) then
      (inr (error_result ("NewsAPI error: "
              ++ to_str env (default (PStr "Unknown NewsAPI error") (assoc "message" body)))), db)
    else
      match iter (default (PList []) (assoc "articles" body)) with
      | inl e => (inl e, db)
      | inr records =>
          let '((created_count, duplicate_count), db1) :=
            process_articles env clock 0 config_id records 0 0 db in
          match save_last_executed config_id end_clock db1 with
          | (inl e, db2) => (inl e, db2)
          | (inr _, db2) =>
              (inr (success_result config_id (name c) (Z.of_nat (length records))
                      created_count duplicate_count), db2)
          end
      end.
Proof.
  intros Hc Hact Hkey Hk Hreq Hst Hjs.
  unfold fetch_try, get_active_config. rewrite Hc, Hact, Hkey, Hk.
  unfold fetch_with_key. rewrite Hreq. simpl.
  assert (raise_for_status resp = inr tt) as ->.
  { unfold raise_for_status.
    destruct (400 <=? status_code resp) eqn:E1; [|reflexivity].
    destruct (status_code resp <? 600) eqn:E2; [|reflexivity].
    exfalso. apply Hst. lia. }
  simpl. rewrite Hjs. simpl. reflexivity.
Qed.

End Fetch.

Section FetchClaims.

Context (env : Env).
Implicit Types (db : DB) (c : NewsSearchConfig).

(** C4 (as stated) fails: the provider responds, reports an error (HTTP 401
    and status "error" in the document), and the invocation is retried:
    [raise_for_status] raises a request exception. *)
Lemma provider_error_counterexample :
  requests_get (env_with_response (inr response_401)) endpoint
    (request_params demo_config "key") 30 = inr response_401
  /\ fetch_news_for_config (env_with_response (inr response_401)) 0 demo_clock 7 1
       (Some "key") demo_db0
     = (Retry 60 RequestException, demo_db0).
Proof. split; vm_compute; reflexivity. Qed.

(** C4 (amended): when the response passes the HTTP status check and its
    document reports a status other than "ok", the run returns the error
    result with the provider's message, asks for no retry, and leaves the
    store (articles and last-executed) as it was; a response with an HTTP
    error status goes the way of a network failure instead: [self.retry]. *)
Theorem provider_error (retries : Z) (clock : nat -> Z) (end_clock config_id : Z)
    (news_api_key : option string) db c (api_key : string) (resp : Response) :
  configs db !! config_id = Some c -> is_active c = true ->
  str_or news_api_key (NEWS_API_KEY env) = Some api_key -> str_truthy api_key = true ->
  requests_get env endpoint (request_params c api_key) 30 = inr resp ->
  (~ (400 <= status_code resp < 600) ->
   forall body,
     json resp = inr (PDict body) ->
     assoc "status" body <> Some (PStr "ok") ->
     fetch_news_for_config env retries clock end_clock config_id news_api_key db
     = (Returned (error_result ("NewsAPI error: "
          ++ to_str env (default (PStr "Unknown NewsAPI error") (assoc "message" body)))), db)
     /\ forall m, assoc "message" body = Some (PStr m) ->
          fetch_news_for_config env retries clock end_clock config_id news_api_key db
          = (Returned (error_result ("NewsAPI error: " ++ m)), db))
  /\ (400 <= status_code resp < 600 ->
      fetch_news_for_config env retries clock end_clock config_id news_api_key db
      = (retry retries (60 * (retries + 1)) RequestException, db)).
Proof.
  intros Hc Hact Hkey Hk Hreq. split.
  - intros Hst body Hjs Hstatus.
    assert (Hrun : fetch_news_for_config env retries clock end_clock config_id news_api_key db
      = (Returned (error_result ("NewsAPI error: "
          ++ to_str env (default (PStr "Unknown NewsAPI error") (assoc "message" body)))), db)).
    { unfold fetch_news_for_config.
      rewrite (fetch_try_responded env clock end_clock config_id news_api_key db c api_key
                 resp body) by assumption.
      assert (not_ok (default PNone (assoc "status" body)) = true) as ->; [|reflexivity].
      destruct (assoc "status" body) as [[| | |s| |]|]; try reflexivity.
      simpl. destruct (String.eqb_spec s "ok") as [->|]; [congruence|reflexivity]. }
    split; [exact Hrun|]. intros m Hm. rewrite Hrun, Hm. reflexivity.
  - intros [Hlo Hhi].
    unfold fetch_news_for_config, fetch_try, get_active_config.
    rewrite Hc, Hact, Hkey, Hk. unfold fetch_with_key. rewrite Hreq. simpl.
    unfold raise_for_status.
    apply Z.leb_le in Hlo. apply Z.ltb_lt in Hhi. rewrite Hlo, Hhi. reflexivity.
Qed.

Lemma alter_present (f : NewsSearchConfig -> NewsSearchConfig) (k : Z)
    (m : gmap Z NewsSearchConfig) c :
  m !! k = Some c -> alter f k m = <[k := f c]> m.
Proof.
  intros H. apply map_eq. intros j. rewrite lookup_alter, lookup_insert.
  destruct (decide (k = j)) as [->|]; [rewrite H|]; reflexivity.
Qed.

(** C5: after a successful response the run sets [last_executed] of the
    configuration to the clock reading taken after the loop and changes no
    other field and no other configuration, whatever happened to the
    records, and the run still returns its summary. The loop stops at no
    record: a record that raises is passed over, the counters and the store
    as they were, and the loop goes on with the records after it, as it
    does after a record that is created or found; so when every record
    raises the counters are 0 and the articles are untouched. *)
Theorem last_executed_after_loop (retries : Z) (clock : nat -> Z) (end_clock config_id : Z)
    (news_api_key : option string) db c (api_key : string) (resp : Response)
    (body : list (string * pyval)) (records : list pyval) :
  configs db !! config_id = Some c -> is_active c = true ->
  str_or news_api_key (NEWS_API_KEY env) = Some api_key -> str_truthy api_key = true ->
  requests_get env endpoint (request_params c api_key) 30 = inr resp ->
  ~ (400 <= status_code resp < 600) ->
  json resp = inr (PDict body) ->
  assoc "status" body = Some (PStr "ok") ->
  iter (default (PList []) (assoc "articles" body)) = inr records ->
  exists created_count duplicate_count db1 c',
    process_articles env clock 0 config_id records 0 0 db
      = ((created_count, duplicate_count), db1)
    /\ fetch_news_for_config env retries clock end_clock config_id news_api_key db
       = (Returned (success_result config_id (name c) (Z.of_nat (length records))
                      created_count duplicate_count),
          mkDB (<[config_id := c']> (configs db)) (articles db1) (next_article_id db1))
    /\ last_executed c' = Some end_clock
    /\ user c' = user c /\ name c' = name c /\ keywords c' = keywords c
    /\ country c' = country c /\ category c' = category c /\ sources c' = sources c
    /\ sort_by c' = sort_by c /\ frequency c' = frequency c
    /\ is_active c' = is_active c /\ created_at c' = created_at c
    /\ updated_at c' = updated_at c
    /\ (forall pre r post,
          records = (pre ++ r :: post)%list ->
          process_articles env clock 0 config_id records 0 0 db
          = match create_from_newsapi env (clock (length pre)) r config_id
                    (process_articles env clock 0 config_id pre 0 0 db).2 with
            | (inr (_, true), db') =>
                process_articles env clock (S (length pre)) config_id post
                  ((process_articles env clock 0 config_id pre 0 0 db).1.1 + 1)
                  (process_articles env clock 0 config_id pre 0 0 db).1.2 db'
            | (inr (_, false), db') =>
                process_articles env clock (S (length pre)) config_id post
                  (process_articles env clock 0 config_id pre 0 0 db).1.1
                  ((process_articles env clock 0 config_id pre 0 0 db).1.2 + 1) db'
            | (inl _, _) =>
                process_articles env clock (S (length pre)) config_id post
                  (process_articles env clock 0 config_id pre 0 0 db).1.1
                  (process_articles env clock 0 config_id pre 0 0 db).1.2
                  (process_articles env clock 0 config_id pre 0 0 db).2
            end)
    /\ ((forall pre r post,
           records = (pre ++ r :: post)%list ->
           exists e, (create_from_newsapi env (clock (length pre)) r config_id db).1 = inl e) ->
        created_count = 0 /\ duplicate_count = 0 /\ db1 = db).
Proof.
  intros Hc Hact Hkey Hk Hreq Hst Hjs Hstatus Hiter.
  pose proof (fun pre r post =>
                process_articles_step env clock config_id pre r post 0 0 db) as Hstep.
  pose proof (process_articles_all_raise env clock config_id records 0 0 db) as Hraise.
  destruct (process_articles env clock 0 config_id records 0 0 db)
    as [[created_count duplicate_count] db1] eqn:Hloop.
  exists created_count, duplicate_count, db1, (with_last_executed end_clock c).
  split; [reflexivity|].
  split; [|do 12 (split; [reflexivity|]); split;
            [intros pre r post ->; rewrite <- Hloop; apply Hstep
            |intros Hall; apply Hraise in Hall; injection Hall as -> -> ->; auto]].
  unfold fetch_news_for_config.
  rewrite (fetch_try_responded env clock end_clock config_id news_api_key db c api_key
             resp body) by assumption.
  rewrite Hstatus. simpl. rewrite Hiter, Hloop.
  pose proof (process_articles_configs env clock config_id records 0 0 0 db) as Hcfg.
  rewrite Hloop in Hcfg. simpl in Hcfg.
  unfold save_last_executed. rewrite Hcfg, Hc.
  rewrite (alter_present _ _ _ c Hc). reflexivity.
Qed.

End FetchClaims.

Lemma provider_error_witness :
  fetch_news_for_config (env_with_response (inr response_200_error)) 0 demo_clock 7 1
    (Some "key") demo_db0
  = (Returned (error_result "NewsAPI error: Your API key is invalid or incorrect."), demo_db0)
  /\ fetch_news_for_config (env_with_response (inr response_401)) 3 demo_clock 7 1
       (Some "key") demo_db0
     = (Failed RequestException, demo_db0).
Proof.
  split.
  - destruct (provider_error (env_with_response (inr response_200_error)) 0 demo_clock 7 1
                (Some "key") demo_db0 demo_config "key" response_200_error
                eq_refl eq_refl eq_refl eq_refl eq_refl) as [Hok _].
    refine (proj2 (Hok _ _ eq_refl _) _ eq_refl).
    + simpl. lia.
    + discriminate.
  - destruct (provider_error (env_with_response (inr response_401)) 3 demo_clock 7 1
                (Some "key") demo_db0 demo_config "key" response_401
                eq_refl eq_refl eq_refl eq_refl eq_refl) as [_ Herr].
    apply Herr. simpl. lia.
Defined.

Lemma unavailable_config_witness :
  fetch_news_for_config demo_env 0 demo_clock 7 3 (Some "key") demo_db0
  = (Returned (error_result "Configuration not found or inactive"), demo_db0).
Proof. apply unavailable_config. left. reflexivity. Defined.

Lemma last_executed_after_loop_witness :
  exists db',
    fetch_news_for_config (env_with_response (inr response_200_ok)) 0 demo_clock 7 1
      (Some "key") demo_db0
    = (Returned (success_result 1 "Tech" 3 1 1), db')
    /\ (last_executed <$> configs db' !! 1) = Some (Some 7)
    /\ configs db' !! 2 = Some demo_config
    /\ articles db' = [demo_article].
Proof.
  destruct (last_executed_after_loop (env_with_response (inr response_200_ok)) 0 demo_clock 7 1
              (Some "key") demo_db0 demo_config "key" response_200_ok _ _
              eq_refl eq_refl eq_refl eq_refl eq_refl ltac:(simpl; lia) eq_refl eq_refl eq_refl)
    as (cc & dc & db1 & c' & Hloop & Hrun & Hle & _).
  vm_compute in Hloop. injection Hloop as <- <- <-.
  eexists. split; [exact Hrun|]. simpl.
  rewrite lookup_insert_eq. simpl. rewrite Hle.
  split; [reflexivity|]. split; [|reflexivity].
  rewrite lookup_insert_ne by discriminate. reflexivity.
Defined.

(** ** The retention sweep *)

Section Cleanup.

Context (env : Env).

Lemma filter_none_keep_all (p : NewsArticle -> bool) (l : list NewsArticle) :
  length (List.filter p l) = 0%nat -> List.filter (fun a => negb (p a)) l = l.
Proof.
  induction l as [|a l IH]; simpl; [reflexivity|].
  destruct (p a); simpl; [discriminate|]. intros H. f_equal. exact (IH H).
Qed.

(** The cutoff is computed exactly when it fits. *)
Lemma cutoff_computed (now n : Z) :
  cutoff_fits now n ->
  (delta ← timedelta_days n; datetime_sub now delta) = inr (now - days_us n).
Proof.
  intros [[H1 H2] [H3 H4]]. unfold timedelta_days, datetime_sub.
  apply Z.leb_le in H1, H2. rewrite H1, H2. simpl.
  apply Z.leb_le in H3, H4. rewrite H3, H4. reflexivity.
Qed.

Lemma cutoff_overflow (now n : Z) :
  ~ cutoff_fits now n ->
  (delta ← timedelta_days n; datetime_sub now delta) = inl OverflowError.
Proof.
  intros Hno. unfold timedelta_days, datetime_sub.
  destruct (Z.leb_spec (-999999999) n), (Z.leb_spec n 999999999); simpl; try reflexivity.
  destruct (Z.leb_spec datetime_min (now - days_us n)),
           (Z.leb_spec (now - days_us n) datetime_max); simpl; try reflexivity.
  exfalso. apply Hno. unfold cutoff_fits. lia.
Qed.

Lemma cutoff_fits_dec (now n : Z) : cutoff_fits now n \/ ~ cutoff_fits now n.
Proof. unfold cutoff_fits. lia. Qed.

(** A sweep whose cutoff fits, as one equation. *)
Lemma sweep_run (now : Z) (days_to_keep : option Z) (db : DB) :
  cutoff_fits now (default 30 days_to_keep) ->
  cleanup_old_articles env now days_to_keep db
  = (Returned (<["status" := PStr "success"]>
       (<["cutoff_date" := PStr (isoformat env (now - days_us (default 30 days_to_keep)))]>
          (<["deleted_count" :=
               PInt (Z.of_nat (length (List.filter
                 (fun a => Article.created_at a <? now - days_us (default 30 days_to_keep))
                 (articles db))))]> ∅))),
     mkDB (configs db)
          (List.filter (fun a => now - days_us (default 30 days_to_keep)
                                 <=? Article.created_at a) (articles db))
          (next_article_id db)).
Proof.
  intros Hfit. set (cutoff := now - days_us (default 30 days_to_keep)).
  set (old := List.filter (fun a => Article.created_at a <? cutoff) (articles db)).
  assert (Hflt : List.filter (fun a => negb (created_before cutoff a)) (articles db)
                 = List.filter (fun a => cutoff <=? Article.created_at a) (articles db)).
  { apply List.filter_ext. intros a. unfold created_before.
    destruct (Z.ltb_spec (Article.created_at a) cutoff), (Z.leb_spec cutoff (Article.created_at a));
      simpl; try reflexivity; lia. }
  unfold cleanup_old_articles. rewrite (cutoff_computed _ _ Hfit). fold cutoff.
  change (List.filter (created_before cutoff) (articles db)) with old.
  destruct (Z.ltb_spec 0 (Z.of_nat (length old))) as [Hpos|Hzero].
  - rewrite Hflt. reflexivity.
  - assert (Hlen : length old = 0%nat) by lia.
    rewrite Hlen. simpl. f_equal. rewrite <- Hflt.
    rewrite (filter_none_keep_all (created_before cutoff)) by exact Hlen.
    destruct db; reflexivity.
Qed.

(** A sweep whose cutoff does not fit. *)
Lemma sweep_overflow (now : Z) (days_to_keep : option Z) (db : DB) :
  ~ cutoff_fits now (default 30 days_to_keep) ->
  cleanup_old_articles env now days_to_keep db
  = (Returned (error_result ("Cleanup error: " ++ exn_str env OverflowError)), db).
Proof.
  intros Hno. unfold cleanup_old_articles. rewrite (cutoff_overflow _ _ Hno). reflexivity.
Qed.

(** C8 (amended): when [now] minus the window is a [datetime], the sweep
    removes the articles created strictly before it and no other, keeps
    the rest as they are, and returns the number removed with the cutoff
    it used; otherwise it returns the error result and removes nothing.
    The window is 30 days when none is given. *)
Theorem retention_sweep (now : Z) (days_to_keep : option Z) (db : DB) :
  let cutoff := now - days_us (default 30 days_to_keep) in
  let old := List.filter (fun a => Article.created_at a <? cutoff) (articles db) in
  (cutoff_fits now (default 30 days_to_keep) ->
   cleanup_old_articles env now days_to_keep db
   = (Returned (<["status" := PStr "success"]>
                  (<["cutoff_date" := PStr (isoformat env cutoff)]>
                     (<["deleted_count" := PInt (Z.of_nat (length old))]> ∅))),
      mkDB (configs db)
           (List.filter (fun a => cutoff <=? Article.created_at a) (articles db))
           (next_article_id db))
   /\ (forall a, In a (articles (cleanup_old_articles env now days_to_keep db).2)
                 <-> In a (articles db) /\ ~ Article.created_at a < cutoff))
  /\ (~ cutoff_fits now (default 30 days_to_keep) ->
      cleanup_old_articles env now days_to_keep db
      = (Returned (error_result ("Cleanup error: " ++ exn_str env OverflowError)), db))
  /\ cleanup_old_articles env now None db = cleanup_old_articles env now (Some 30) db.
Proof.
  intros cutoff old. split; [|split; [apply sweep_overflow|reflexivity]].
  intros Hfit. pose proof (sweep_run now days_to_keep db Hfit) as Hrun.
  split; [exact Hrun|].
  intros a. rewrite Hrun. simpl. rewrite List.filter_In. fold cutoff. split.
  - intros [H1 H2]. split; [exact H1|]. apply Z.leb_le in H2. lia.
  - intros [H1 H2]. split; [exact H1|]. apply Z.leb_le. lia.
Qed.

End Cleanup.

(** C8 (as stated) fails: with a window of 800000 days the cutoff would
    lie before the first [datetime]; the sweep returns the error result,
    with no count and no cutoff. *)
Lemma retention_sweep_counterexample :
  cleanup_old_articles demo_env (demo_clock 0) (Some 800000) aged_db
  = (Returned (error_result "Cleanup error: error"), aged_db)
  /\ error_result "Cleanup error: error" !! "deleted_count" = None
  /\ error_result "Cleanup error: error" !! "cutoff_date" = None.
Proof. repeat split; vm_compute; reflexivity. Qed.

(** A sweep with the default window: of two articles published long ago,
    only the one created more than 30 days before [now] goes; and the
    window that does not fit. *)
Lemma retention_sweep_witness :
  cleanup_old_articles demo_env (demo_clock 0) None aged_db
  = (Returned (<["status" := PStr "success"]>
                 (<["cutoff_date" := PStr "cutoff"]> (<["deleted_count" := PInt 1]> ∅))),
     mkDB ∅ [article_at 2 "b" 0 (demo_clock 0 - days_us 30)] 3)
  /\ cleanup_old_articles demo_env (demo_clock 0) (Some 800000) aged_db
     = (Returned (error_result "Cleanup error: error"), aged_db).
Proof.
  destruct (retention_sweep demo_env (demo_clock 0) None aged_db) as (Hfit & _ & _).
  destruct (retention_sweep demo_env (demo_clock 0) (Some 800000) aged_db) as (_ & Hno & _).
  split.
  - destruct Hfit as [Hrun _]; [unfold cutoff_fits; vm_compute; intuition discriminate|].
    rewrite Hrun. vm_compute. reflexivity.
  - apply Hno. unfold cutoff_fits. vm_compute. intros [_ [H _]]. apply H. reflexivity.
Defined.

(** ** The bulk-create endpoint and the loop of the pipeline *)

Section BulkCreate.

Context (env : Env).

Lemma create_articles_loop_agrees clock cfg batch i acc n m db created db' :
  create_articles_loop env clock i cfg batch acc db = (inr created, db') ->
  (process_articles env clock i cfg (map PDict batch) n m db).2 = db'.
Proof.
  revert i acc n m db. induction batch as [|r rest IH]; intros i acc n m db; simpl.
  - intros [= _ <-]. reflexivity.
  - destruct (create_from_newsapi env (clock i) (PDict r) cfg db) as [[e|[a [|]]] db1];
      [discriminate| |]; intros H; eapply IH; exact H.
Qed.

Lemma create_articles_loop_length clock cfg batch i acc db created db' :
  create_articles_loop env clock i cfg batch acc db = (inr created, db') ->
  length created = (length acc + length batch)%nat.
Proof.
  revert i acc db. induction batch as [|r rest IH]; intros i acc db; simpl.
  - intros [= <- _]. lia.
  - destruct (create_from_newsapi env (clock i) (PDict r) cfg db) as [[e|[a b]] db1];
      [discriminate|]. intros H. apply IH in H. rewrite length_app in H. simpl in H. lia.
Qed.

Lemma create_articles_loop_raises clock cfg batch i acc n m db e db' :
  create_articles_loop env clock i cfg batch acc db = (inl e, db') ->
  exists pre r post,
    batch = (pre ++ r :: post)%list
    /\ (process_articles env clock i cfg (map PDict pre) n m db).2 = db'
    /\ create_from_newsapi env (clock (i + length pre)%nat) (PDict r) cfg db' = (inl e, db').
Proof.
  revert i acc n m db. induction batch as [|r rest IH]; intros i acc n m db; simpl;
    [discriminate|].
  pose proof (cfn_cases env (clock i) (PDict r) cfg db) as Hs.
  destruct (create_from_newsapi env (clock i) (PDict r) cfg db) as [[e0|[a b]] db1] eqn:Hc;
    simpl in Hs.
  - intros [= <- <-]. inversion Hs; subst.
    exists [], r, rest. simpl. rewrite Nat.add_0_r. auto.
  - intros H.
    assert (Hstep : forall n' m', exists pre r' post,
               rest = (pre ++ r' :: post)%list
               /\ (process_articles env clock (S i) cfg (map PDict pre) n' m' db1).2 = db'
               /\ create_from_newsapi env (clock (S i + length pre)%nat) (PDict r') cfg db'
                  = (inl e, db'))
      by (intros n' m'; eapply IH; exact H).
    destruct b; [destruct (Hstep (n + 1) m) as (pre & r' & post & -> & Hp & Hr)
                |destruct (Hstep n (m + 1)) as (pre & r' & post & -> & Hp & Hr)];
      exists (r :: pre), r', post; simpl; rewrite Hc, Nat.add_succ_r; auto.
Qed.

(** When no record of the batch raises in the loop of the pipeline, the
    endpoint completes and leaves the same store. *)
Lemma create_articles_loop_complete clock cfg batch i acc n m db :
  (process_articles env clock i cfg (map PDict batch) n m db).1.1 - n
  + ((process_articles env clock i cfg (map PDict batch) n m db).1.2 - m)
  = Z.of_nat (length batch) ->
  exists created,
    create_articles_loop env clock i cfg batch acc db
    = (inr created, (process_articles env clock i cfg (map PDict batch) n m db).2).
Proof.
  revert i acc n m db. induction batch as [|r rest IH]; intros i acc n m db.
  - simpl. eauto.
  - cbn [map process_articles create_articles_loop length].
    destruct (create_from_newsapi env (clock i) (PDict r) cfg db) as [[e|[a [|]]] db1];
      intros Hall.
    + pose proof (process_articles_counts env clock cfg (map PDict rest) (S i) n m db1) as Hb.
      rewrite length_map in Hb. lia.
    + apply IH. lia.
    + apply IH. lia.
Qed.

(** A request that completes has met no record that raises. *)
Lemma create_articles_loop_counts clock cfg batch i acc n m db created db' :
  create_articles_loop env clock i cfg batch acc db = (inr created, db') ->
  (process_articles env clock i cfg (map PDict batch) n m db).1.1 - n
  + ((process_articles env clock i cfg (map PDict batch) n m db).1.2 - m)
  = Z.of_nat (length batch).
Proof.
  revert i acc n m db. induction batch as [|r rest IH]; intros i acc n m db.
  - simpl. lia.
  - cbn [map process_articles create_articles_loop length].
    destruct (create_from_newsapi env (clock i) (PDict r) cfg db) as [[e|[a [|]]] db1];
      [discriminate| |]; intros H.
    + apply (IH _ _ (n + 1) m) in H. lia.
    + apply (IH _ _ n (m + 1)) in H. lia.
Qed.

(** A request that raises does so at the first record that raises: the
    records before it were all created or found. *)
Lemma create_articles_loop_first clock cfg batch i acc n m db e db' :
  create_articles_loop env clock i cfg batch acc db = (inl e, db') ->
  exists pre r post,
    batch = (pre ++ r :: post)%list
    /\ (process_articles env clock i cfg (map PDict pre) n m db).1.1 - n
       + ((process_articles env clock i cfg (map PDict pre) n m db).1.2 - m)
       = Z.of_nat (length pre)
    /\ (process_articles env clock i cfg (map PDict pre) n m db).2 = db'
    /\ create_from_newsapi env (clock (i + length pre)%nat) (PDict r) cfg db' = (inl e, db').
Proof.
  revert i acc n m db. induction batch as [|r rest IH]; intros i acc n m db;
    cbn [create_articles_loop]; [discriminate|].
  pose proof (cfn_cases env (clock i) (PDict r) cfg db) as Hs.
  destruct (create_from_newsapi env (clock i) (PDict r) cfg db) as [[e0|[a b]] db1] eqn:Hc;
    simpl in Hs.
  - intros [= <- <-]. inversion Hs; subst.
    exists [], r, rest. simpl. rewrite Nat.add_0_r. repeat split; auto; lia.
  - intros H.
    assert (Hstep : forall n' m', exists pre r' post,
               rest = (pre ++ r' :: post)%list
               /\ (process_articles env clock (S i) cfg (map PDict pre) n' m' db1).1.1 - n'
                  + ((process_articles env clock (S i) cfg (map PDict pre) n' m' db1).1.2 - m')
                  = Z.of_nat (length pre)
               /\ (process_articles env clock (S i) cfg (map PDict pre) n' m' db1).2 = db'
               /\ create_from_newsapi env (clock (S i + length pre)%nat) (PDict r') cfg db'
                  = (inl e, db'))
      by (intros n' m'; eapply IH; exact H).
    destruct b; [destruct (Hstep (n + 1) m) as (pre & r' & post & -> & Hn & Hp & Hr)
                |destruct (Hstep n (m + 1)) as (pre & r' & post & -> & Hn & Hp & Hr)];
      exists (r :: pre), r', post; cbn [map process_articles length app];
      rewrite Hc, Nat.add_succ_r; repeat split; auto; lia.
Qed.

Lemma create_articles_loop_app clock cfg l1 l2 i acc db created db1 :
  create_articles_loop env clock i cfg l1 acc db = (inr created, db1) ->
  create_articles_loop env clock i cfg (l1 ++ l2) acc db
  = create_articles_loop env clock (i + length l1) cfg l2 created db1.
Proof.
  revert i acc db. induction l1 as [|r rest IH]; intros i acc db.
  - simpl. intros [= <- <-]. rewrite Nat.add_0_r. reflexivity.
  - cbn [app create_articles_loop length].
    destruct (create_from_newsapi env (clock i) (PDict r) cfg db) as [[e|[a b]] db'];
      [discriminate|]. intros H. rewrite (IH _ _ _ H), Nat.add_succ_r. reflexivity.
Qed.

(** C9 (as stated) fails: on a batch whose first record has every field of
    the provider but a null title, the endpoint ends with the exception of
    the insert and stores nothing, while the loop of the pipeline passes
    over that record and stores the next one. *)
Lemma bulk_create_counterexample :
  create_articles_from_newsapi demo_env demo_clock 1 batch_with_bad_record demo_db0
  = (inl IntegrityError, demo_db0)
  /\ process_articles demo_env demo_clock 0 1 (map PDict batch_with_bad_record) 0 0 demo_db0
     = ((1, 0), mkDB (configs demo_db0)
                  [mkArticle 1 1 "Test Article Title" None "https://example.com/article" None
                     1701424800000000 (Some "This is the article content...")
                     (Some "bbc-news") "BBC News" (Some "John Doe") 1762000000000001 false] 2)
  /\ (create_articles_from_newsapi demo_env demo_clock 1 batch_with_bad_record demo_db0).2
     <> (process_articles demo_env demo_clock 0 1 (map PDict batch_with_bad_record) 0 0
           demo_db0).2.
Proof.
  split; [vm_compute; reflexivity|]. split; [vm_compute; reflexivity|].
  intros H. apply (f_equal articles) in H. vm_compute in H. discriminate H.
Qed.

(** C9 (amended): both paths call [create_from_newsapi] record by record.
    For a configuration that exists: when no record of the batch raises,
    the endpoint completes and leaves the store of the loop of the
    pipeline; at the first record that raises the endpoint ends with that
    exception, leaving the store of the loop on the records before it,
    while the loop passes over the record and goes on with the rest; and
    the endpoint does nothing else. *)
Theorem bulk_create_agrees (clock : nat -> Z) (search_config_id : Z)
    (articles_data : list (list (string * pyval))) (db : DB) :
  is_Some (configs db !! search_config_id) ->
  ((process_articles env clock 0 search_config_id (map PDict articles_data) 0 0 db).1.1
   + (process_articles env clock 0 search_config_id (map PDict articles_data) 0 0 db).1.2
   = Z.of_nat (length articles_data) ->
   exists created_articles,
     create_articles_from_newsapi env clock search_config_id articles_data db
     = (inr created_articles,
        (process_articles env clock 0 search_config_id (map PDict articles_data) 0 0 db).2)
     /\ length created_articles = length articles_data)
  /\ (forall pre r post e,
        articles_data = (pre ++ r :: post)%list ->
        (process_articles env clock 0 search_config_id (map PDict pre) 0 0 db).1.1
        + (process_articles env clock 0 search_config_id (map PDict pre) 0 0 db).1.2
        = Z.of_nat (length pre) ->
        (create_from_newsapi env (clock (length pre)) (PDict r) search_config_id
           (process_articles env clock 0 search_config_id (map PDict pre) 0 0 db).2).1
        = inl e ->
        create_articles_from_newsapi env clock search_config_id articles_data db
        = (inl e, (process_articles env clock 0 search_config_id (map PDict pre) 0 0 db).2)
        /\ process_articles env clock 0 search_config_id (map PDict articles_data) 0 0 db
           = process_articles env clock (S (length pre)) search_config_id (map PDict post)
               (process_articles env clock 0 search_config_id (map PDict pre) 0 0 db).1.1
               (process_articles env clock 0 search_config_id (map PDict pre) 0 0 db).1.2
               (process_articles env clock 0 search_config_id (map PDict pre) 0 0 db).2)
  /\ match create_articles_from_newsapi env clock search_config_id articles_data db with
     | (inr created_articles, db') =>
         (process_articles env clock 0 search_config_id (map PDict articles_data) 0 0 db).2
         = db'
         /\ (process_articles env clock 0 search_config_id (map PDict articles_data) 0 0
               db).1.1
            + (process_articles env clock 0 search_config_id (map PDict articles_data) 0 0
                 db).1.2
            = Z.of_nat (length articles_data)
         /\ length created_articles = length articles_data
     | (inl e, db') =>
         exists pre r post,
           articles_data = (pre ++ r :: post)%list
           /\ (process_articles env clock 0 search_config_id (map PDict pre) 0 0 db).1.1
              + (process_articles env clock 0 search_config_id (map PDict pre) 0 0 db).1.2
              = Z.of_nat (length pre)
           /\ (process_articles env clock 0 search_config_id (map PDict pre) 0 0 db).2 = db'
           /\ create_from_newsapi env (clock (length pre)) (PDict r) search_config_id db'
              = (inl e, db')
     end.
Proof.
  intros [c Hc]. unfold create_articles_from_newsapi. rewrite Hc.
  split; [|split].
  - intros Hall.
    destruct (create_articles_loop_complete clock search_config_id articles_data 0 [] 0 0 db)
      as [created Hrun]; [lia|].
    exists created. split; [exact Hrun|].
    apply create_articles_loop_length in Hrun. simpl in Hrun. lia.
  - intros pre r post e -> Hpre Hr.
    destruct (create_articles_loop_complete clock search_config_id pre 0 [] 0 0 db)
      as [created Hrun]; [lia|].
    set (P := process_articles env clock 0 search_config_id (map PDict pre) 0 0 db) in *.
    split.
    + rewrite (create_articles_loop_app _ _ _ _ _ _ _ _ _ Hrun). cbn [create_articles_loop].
      simpl Nat.add.
      pose proof (cfn_cases env (clock (length pre)) (PDict r) search_config_id P.2) as Hs.
      destruct (create_from_newsapi env (clock (length pre)) (PDict r) search_config_id P.2)
        as [[e0|[a b]] db1]; simpl in Hr; [|discriminate].
      injection Hr as ->. simpl in Hs. inversion Hs; subst. reflexivity.
    + rewrite map_app, process_articles_app. fold P. rewrite length_map. simpl Nat.add.
      cbn [map]. eapply process_articles_skip. exact Hr.
  - destruct (create_articles_loop env clock 0 search_config_id articles_data [] db)
      as [[e|created_articles] db'] eqn:H.
    + apply (create_articles_loop_first _ _ _ _ _ 0 0) in H
        as (pre & r & post & -> & Hn & Hp & Hr).
      exists pre, r, post. repeat split; auto. lia.
    + split; [eapply create_articles_loop_agrees; exact H|]. split.
      * pose proof (create_articles_loop_counts _ _ _ _ _ 0 0 _ _ _ H). lia.
      * apply create_articles_loop_length in H. simpl in H. lia.
Qed.

End BulkCreate.

(** A batch the endpoint completes, and the batch of the counterexample. *)
Lemma bulk_create_agrees_witness :
  (exists created_articles,
     create_articles_from_newsapi demo_env demo_clock 1 [demo_record; demo_record] demo_db0
     = (inr created_articles, demo_db1)
     /\ length created_articles = 2%nat)
  /\ (create_articles_from_newsapi demo_env demo_clock 1 batch_with_bad_record demo_db0
      = (inl IntegrityError, demo_db0)
      /\ process_articles demo_env demo_clock 0 1 (map PDict batch_with_bad_record) 0 0
           demo_db0
         = process_articles demo_env demo_clock 1 1 [PDict demo_record] 0 0 demo_db0).
Proof.
  split.
  - destruct (bulk_create_agrees demo_env demo_clock 1 [demo_record; demo_record] demo_db0
                (ex_intro _ demo_config eq_refl)) as (H & _).
    apply H. vm_compute. reflexivity.
  - destruct (bulk_create_agrees demo_env demo_clock 1 batch_with_bad_record demo_db0
                (ex_intro _ demo_config eq_refl)) as (_ & H & _).
    apply (H [] removed_record [demo_record] IntegrityError); reflexivity.
Defined.

(** ** Further properties of the models *)

Section SourcesList.

Implicit Types (s : string) (self : NewsSearchConfig).

Lemma lstrip_starts_tight s : starts_tight (lstrip s) = true.
Proof.
  induction s as [|c r IH]; simpl; [reflexivity|].
  destruct (is_space c) eqn:E; [exact IH|]. simpl. rewrite E. reflexivity.
Qed.

Lemma rstrip_ends_tight s : ends_tight (rstrip s) = true.
Proof.
  induction s as [|c r IH]; simpl; [reflexivity|].
  destruct (rstrip r) as [|c' r'] eqn:E.
  - destruct (is_space c) eqn:Ec; simpl; [reflexivity|]. rewrite Ec. reflexivity.
  - simpl. simpl in IH. exact IH.
Qed.

Lemma rstrip_starts_tight s : starts_tight s = true -> starts_tight (rstrip s) = true.
Proof.
  destruct s as [|c r]; simpl; [reflexivity|]. intros Hc.
  destruct (rstrip r); [|exact Hc].
  destruct (is_space c) eqn:E; [discriminate|]. simpl. rewrite E. reflexivity.
Qed.

Lemma lstrip_tight s : starts_tight s = true -> lstrip s = s.
Proof. destruct s as [|c r]; simpl; [reflexivity|]. destruct (is_space c); [discriminate|reflexivity]. Qed.

Lemma rstrip_tight s : ends_tight s = true -> rstrip s = s.
Proof.
  induction s as [|c r IH]; [reflexivity|]. intros H.
  destruct r as [|c' r'].
  - simpl in *. destruct (is_space c); [discriminate|reflexivity].
  - change (ends_tight (String c (String c' r'))) with (ends_tight (String c' r')) in H.
    change (rstrip (String c (String c' r')))
      with (match rstrip (String c' r') with
            | EmptyString => if is_space c then EmptyString else String c EmptyString
            | r0 => String c r0
            end).
    rewrite (IH H). reflexivity.
Qed.

Lemma strip_tight s : starts_tight (strip s) = true /\ ends_tight (strip s) = true.
Proof.
  unfold strip. split.
  - apply rstrip_starts_tight, lstrip_starts_tight.
  - apply rstrip_ends_tight.
Qed.

Lemma strip_fixed s : starts_tight s = true -> ends_tight s = true -> strip s = s.
Proof. intros H1 H2. unfold strip. rewrite (lstrip_tight _ H1). apply rstrip_tight, H2. Qed.

Lemma lstrip_forall p s : string_forall p s = true -> string_forall p (lstrip s) = true.
Proof.
  induction s as [|c r IH]; simpl; [reflexivity|].
  intros [Hc Hr]%andb_prop. destruct (is_space c); [auto|]. simpl. rewrite Hc. exact Hr.
Qed.

Lemma rstrip_forall p s : string_forall p s = true -> string_forall p (rstrip s) = true.
Proof.
  induction s as [|c r IH]; simpl; [reflexivity|].
  intros [Hc Hr]%andb_prop. specialize (IH Hr).
  destruct (rstrip r) as [|c' r'].
  - destruct (is_space c); simpl; [reflexivity|]. rewrite Hc. reflexivity.
  - simpl. rewrite Hc. exact IH.
Qed.

Lemma split_no_sep s : Forall (fun seg => string_forall not_comma seg = true) (split "," s).
Proof.
  induction s as [|c r IH]; simpl; [repeat constructor|].
  destruct (Ascii.eqb c ",") eqn:E.
  - constructor; [reflexivity|exact IH].
  - destruct (split "," r) as [|h t]; [repeat constructor; simpl; unfold not_comma; rewrite E; reflexivity|].
    inversion IH; subst. constructor; [|assumption].
    simpl. unfold not_comma at 1. rewrite E. assumption.
Qed.

Lemma get_sources_list_entries self : Forall source_entry (get_sources_list self).
Proof.
  unfold get_sources_list. destruct (str_truthy (sources self)); [|constructor].
  pose proof (split_no_sep (sources self)) as Hs.
  induction Hs as [|seg l Hseg _ IH]; simpl; [constructor|].
  destruct (str_truthy (strip seg)) eqn:E; [|exact IH].
  simpl. constructor; [|exact IH].
  destruct (strip_tight seg) as [H1 H2].
  repeat split; try assumption.
  - apply str_truthy_true. exact E.
  - unfold strip. apply rstrip_forall, lstrip_forall. exact Hseg.
Qed.






(** X1: every entry of the list of sources is a non-empty string without
    a comma and without whitespace at either end. *)
Theorem get_sources_list_clean self (s : string) :
  In s (get_sources_list self) ->
  s <> "" /\ string_forall not_comma s = true
  /\ starts_tight s = true /\ ends_tight s = true /\ strip s = s.
Proof.
  intros Hin.
  pose proof (get_sources_list_entries self) as H.
  rewrite List.Forall_forall in H. destruct (H s Hin) as (H0 & H1 & H2 & H3).
  repeat split; try assumption. apply strip_fixed; assumption.
Qed.


(** X3: the translated parameters always carry [sortBy]; they carry [q],
    with the keywords as they are, exactly when the keywords are not
    empty; and they never carry a key other than the five of the
    provider. *)
Theorem get_newsapi_params_keys self :
  get_newsapi_params self !! "sortBy" = Some (PStr (sort_by self))
  /\ get_newsapi_params self !! "q"
     = (if decide (keywords self = "") then None else Some (PStr (keywords self)))
  /\ (is_Some (get_newsapi_params self !! "sources") <-> sources self <> "")
  /\ forall k, is_Some (get_newsapi_params self !! k) ->
       In k ["country"; "category"; "sortBy"; "q"; "sources"].
Proof.
  unfold get_newsapi_params.
  destruct (str_truthy (keywords self)) eqn:Ek, (str_truthy (sources self)) eqn:Es;
    (destruct (decide (keywords self = "")) as [Hk|Hk];
     [apply str_truthy_false in Hk; try congruence
     |apply str_truthy_true in Hk; try congruence]);
    (split; [reflexivity|]); (split; [reflexivity|]);
    (split; [try apply str_truthy_true in Es; try apply str_truthy_false in Es;
             split; [intros [v Hv]; try discriminate Hv; try assumption
                    |intros Hne; try congruence; eexists; reflexivity]|]);
    intros k [v Hv]; simpl;
    repeat (first [rewrite lookup_delete_ne in Hv by (intros <-; rewrite lookup_delete_eq in Hv; discriminate)
                  |rewrite lookup_insert in Hv; destruct (decide (_ = k)) as [<-|]; [tauto|]]);
    try (rewrite lookup_empty in Hv; discriminate).
Qed.

End SourcesList.

(** ** Further properties of [fetch_news_for_config] *)

Section FetchPaths.

Context (env : Env).
Implicit Types (db : DB) (c : NewsSearchConfig).

(** X4: without a usable key, as argument or in the settings, an active
    configuration gets the result "No NewsAPI key configured": no request
    is made, nothing is written and no retry is asked for. *)
Theorem missing_key (retries : Z) (clock : nat -> Z) (end_clock config_id : Z)
    (news_api_key : option string) db c :
  configs db !! config_id = Some c -> is_active c = true ->
  no_key news_api_key -> no_key (NEWS_API_KEY env) ->
  fetch_news_for_config env retries clock end_clock config_id news_api_key db
  = (Returned (error_result "No NewsAPI key configured"), db).
Proof.
  intros Hc Hact Hk Hs.
  unfold fetch_news_for_config, fetch_try, get_active_config. rewrite Hc, Hact.
  destruct Hk as [-> | ->], Hs as [-> | ->]; reflexivity.
Qed.

Lemma create_from_newsapi_settings k now r cfg db :
  create_from_newsapi (with_settings_key k env) now r cfg db
  = create_from_newsapi env now r cfg db.
Proof. reflexivity. Qed.

Lemma process_articles_settings k clock i cfg records n m db :
  process_articles (with_settings_key k env) clock i cfg records n m db
  = process_articles env clock i cfg records n m db.
Proof.
  revert i n m db. induction records as [|r rest IH]; intros i n m db; simpl; [reflexivity|].
  rewrite create_from_newsapi_settings.
  destruct (create_from_newsapi env (clock i) r cfg db) as [[e|[a [|]]] db1]; apply IH.
Qed.

(** X5: a non-empty key passed as argument takes precedence: the key of
    the settings has no influence on the run. *)
Theorem explicit_key_wins (retries : Z) (clock : nat -> Z) (end_clock config_id : Z)
    (api_key : string) (k : option string) db :
  api_key <> "" ->
  fetch_news_for_config (with_settings_key k env) retries clock end_clock config_id
    (Some api_key) db
  = fetch_news_for_config env retries clock end_clock config_id (Some api_key) db.
Proof.
  intros Hne. apply str_truthy_true in Hne.
  unfold fetch_news_for_config, fetch_try. simpl. rewrite Hne.
  destruct (get_active_config config_id db) as [e|c]; [reflexivity|].
  unfold fetch_with_key. simpl.
  destruct (requests_get env endpoint (request_params c api_key) 30) as [e|resp];
    [reflexivity|]. simpl.
  destruct (raise_for_status resp) as [e|[]]; [reflexivity|]. simpl.
  destruct (json resp) as [e|data]; [reflexivity|]. simpl.
  destruct (get data "status") as [e|status]; [reflexivity|]. simpl.
  destruct (not_ok status); [reflexivity|].
  destruct (get_default data "articles" (PList [])) as [e|v]; [reflexivity|]. simpl.
  destruct (iter v) as [e|records]; [reflexivity|].
  rewrite process_articles_settings. reflexivity.
Qed.

(** X6: when the request raises a request exception the invocation writes
    nothing and asks for a retry after 60 seconds times the number of the
    attempt, up to the third retry; after that it fails with the
    exception. *)
Theorem network_failure (retries : Z) (clock : nat -> Z) (end_clock config_id : Z)
    (news_api_key : option string) db c (api_key : string) :
  configs db !! config_id = Some c -> is_active c = true ->
  str_or news_api_key (NEWS_API_KEY env) = Some api_key -> str_truthy api_key = true ->
  requests_get env endpoint (request_params c api_key) 30 = inl RequestException ->
  (retries < 3 ->
   fetch_news_for_config env retries clock end_clock config_id news_api_key db
   = (Retry (60 * (retries + 1)) RequestException, db))
  /\ (3 <= retries ->
      fetch_news_for_config env retries clock end_clock config_id news_api_key db
      = (Failed RequestException, db)).
Proof.
  intros Hc Hact Hkey Hk Hreq.
  assert (Hrun : fetch_news_for_config env retries clock end_clock config_id news_api_key db
                 = (retry retries (60 * (retries + 1)) RequestException, db)).
  { unfold fetch_news_for_config, fetch_try, get_active_config.
    rewrite Hc, Hact, Hkey, Hk. unfold fetch_with_key. rewrite Hreq. reflexivity. }
  rewrite Hrun. unfold retry, max_retries. split; intros H.
  - destruct (Z.ltb_spec 3 (retries + 1)); [lia|reflexivity].
  - destruct (Z.ltb_spec 3 (retries + 1)); [reflexivity|lia].
Qed.

(** X7: a response that passes the HTTP check but whose document is not an
    object, or reports "ok" with an [articles] value that cannot be
    iterated, ends the run with the result "Unexpected error": nothing is
    written, [last_executed] stays, and no retry is asked for. *)
Theorem malformed_response (retries : Z) (clock : nat -> Z) (end_clock config_id : Z)
    (news_api_key : option string) db c (api_key : string) (resp : Response) :
  configs db !! config_id = Some c -> is_active c = true ->
  str_or news_api_key (NEWS_API_KEY env) = Some api_key -> str_truthy api_key = true ->
  requests_get env endpoint (request_params c api_key) 30 = inr resp ->
  ~ (400 <= status_code resp < 600) ->
  (forall data, json resp = inr data -> (forall body, data <> PDict body) ->
     fetch_news_for_config env retries clock end_clock config_id news_api_key db
     = (Returned (error_result ("Unexpected error: " ++ exn_str env AttributeError)), db))
  /\ (forall body,
        json resp = inr (PDict body) ->
        assoc "status" body = Some (PStr "ok") ->
        iter (default (PList []) (assoc "articles" body)) = inl TypeError ->
        fetch_news_for_config env retries clock end_clock config_id news_api_key db
        = (Returned (error_result ("Unexpected error: " ++ exn_str env TypeError)), db)).
Proof.
  intros Hc Hact Hkey Hk Hreq Hst. split.
  - intros data Hjs Hnd.
    unfold fetch_news_for_config, fetch_try, get_active_config.
    rewrite Hc, Hact, Hkey, Hk. unfold fetch_with_key. rewrite Hreq. simpl.
    assert (raise_for_status resp = inr tt) as ->.
    { unfold raise_for_status.
      destruct (400 <=? status_code resp) eqn:E1; [|reflexivity].
      destruct (status_code resp <? 600) eqn:E2; [|reflexivity].
      exfalso. apply Hst. lia. }
    simpl. rewrite Hjs. simpl.
    destruct data; try reflexivity. exfalso. eapply Hnd. reflexivity.
  - intros body Hjs Hstatus Hiter. unfold fetch_news_for_config.
    rewrite (fetch_try_responded env clock end_clock config_id news_api_key db c api_key
               resp body) by assumption.
    rewrite Hstatus. simpl. rewrite Hiter. reflexivity.
Qed.

End FetchPaths.

(** ** What the ingestion writes *)

Section Accounting.

Context (env : Env).
Implicit Types (db : DB) (c : NewsSearchConfig) (a : NewsArticle).

Lemma create_inr_key now u dflt db a db' :
  create env now u dflt db = (inr a, db') ->
  Article.id a = next_article_id db
  /\ is_Some (configs db !! Article.search_config a)
  /\ Article.is_read a = false.
Proof.
  unfold create.
  destruct (datetime_to_python env (d_published_at dflt)) as [e|pa]; [discriminate|].
  destruct (configs db !! d_search_config dflt) as [c|] eqn:Ec; [|discriminate].
  destruct (char_to_python env (d_title dflt)) as [t|]; [|discriminate].
  destruct (char_to_python env u) as [u'|]; [|discriminate].
  destruct pa as [p|]; [|discriminate].
  destruct (char_to_python env (d_source_name dflt)) as [sn|]; [|discriminate].
  destruct (db_accepts env _); [|discriminate].
  intros [= <- <-]. simpl. rewrite Ec. eauto.
Qed.

Lemma normalize_search_config r cfg u dflt :
  normalize r cfg = inr (u, dflt) -> d_search_config dflt = cfg.
Proof.
  unfold normalize.
  destruct (getitem r "url"); simpl; [discriminate|].
  destruct (getitem r "title"); simpl; [discriminate|].
  destruct (get r "description"); simpl; [discriminate|].
  destruct (get r "urlToImage"); simpl; [discriminate|].
  destruct (getitem r "publishedAt"); simpl; [discriminate|].
  destruct (get r "content"); simpl; [discriminate|].
  destruct (source_id_of r); simpl; [discriminate|].
  destruct (source_name_of r); simpl; [discriminate|].
  destruct (get r "author"); simpl; [discriminate|].
  intros [= _ <-]. reflexivity.
Qed.

Lemma process_articles_appends (clock : nat -> Z) (i : nat) (config_id : Z)
    (records : list pyval) (created_count duplicate_count : Z) db :
  exists new,
    articles (process_articles env clock i config_id records created_count
                duplicate_count db).2 = (articles db ++ new)%list
    /\ (process_articles env clock i config_id records created_count
          duplicate_count db).1.1 = created_count + Z.of_nat (length new)
    /\ duplicate_count
       <= (process_articles env clock i config_id records created_count
             duplicate_count db).1.2
    /\ Z.of_nat (length new)
       + ((process_articles env clock i config_id records created_count
             duplicate_count db).1.2 - duplicate_count)
       <= Z.of_nat (length records)
    /\ Forall (fun a => Article.search_config a = config_id) new.
Proof.
  revert i created_count duplicate_count db.
  induction records as [|r rest IH]; intros i n m db.
  - exists []. simpl. rewrite app_nil_r. repeat split; try lia. constructor.
  - cbn [process_articles].
    pose proof (cfn_cases env (clock i) r config_id db) as Hs.
    destruct (create_from_newsapi env (clock i) r config_id db) as [[e|[a [|]]] db1];
      simpl in Hs; inversion Hs as [|u dflt a' Hn Hg|u dflt a' Hn Hg Hcr]; subst db1.
    + destruct (IH (S i) n m db) as (new & H1 & H2 & H3 & H4 & H5).
      exists new. rewrite H1, H2. repeat split; try assumption; try lia.
      cbn [length]. lia.
    + destruct (IH (S i) (n + 1) m
                  (mkDB (configs db) (articles db ++ [a]) (next_article_id db + 1)))
        as (new & H1 & H2 & H3 & H4 & H5).
      exists (a :: new). rewrite H1, H2. cbn [articles length].
      rewrite <- app_assoc. repeat split; try assumption; try lia.
      constructor; [|assumption].
      apply create_inr in Hcr as (_ & _ & Hsc & _). rewrite Hsc.
      eapply normalize_search_config. exact Hn.
    + destruct (IH (S i) n (m + 1) db) as (new & H1 & H2 & H3 & H4 & H5).
      exists new. rewrite H1, H2. repeat split; try assumption; try lia.
      cbn [length]. lia.
Qed.

(** X8: the loop of the pipeline only appends: the stored rows stay as
    they are, [created_count] grows by the number of rows appended, all of
    them owned by the configuration, the two counters together grow by at
    most the number of records, and no configuration is touched. *)
Theorem process_articles_accounting (clock : nat -> Z) (i : nat) (config_id : Z)
    (records : list pyval) (created_count duplicate_count : Z) db :
  configs (process_articles env clock i config_id records created_count
             duplicate_count db).2 = configs db
  /\ exists new,
    articles (process_articles env clock i config_id records created_count
                duplicate_count db).2 = (articles db ++ new)%list
    /\ (process_articles env clock i config_id records created_count
          duplicate_count db).1.1 = created_count + Z.of_nat (length new)
    /\ duplicate_count
       <= (process_articles env clock i config_id records created_count
             duplicate_count db).1.2
    /\ Z.of_nat (length new)
       + ((process_articles env clock i config_id records created_count
             duplicate_count db).1.2 - duplicate_count)
       <= Z.of_nat (length records)
    /\ Forall (fun a => Article.search_config a = config_id) new.
Proof.
  split.
  - apply process_articles_configs.
  - destruct (process_articles_appends clock i config_id records created_count
                duplicate_count db) as (new & H1 & H2 & H3 & H4 & H5).
    exists new. repeat split; assumption.
Qed.

Lemma fetch_try_cases clock end_clock config_id news_api_key db :
  match (fetch_try env clock end_clock config_id news_api_key db).1 with
  | inl e => (fetch_try env clock end_clock config_id news_api_key db).2 = db
  | inr result =>
      (fetch_try env clock end_clock config_id news_api_key db).2 = db
      \/ exists c records,
          configs db !! config_id = Some c
          /\ result
             = success_result config_id (name c) (Z.of_nat (length records))
                 (process_articles env clock 0 config_id records 0 0 db).1.1
                 (process_articles env clock 0 config_id records 0 0 db).1.2
          /\ (fetch_try env clock end_clock config_id news_api_key db).2
             = mkDB (<[config_id := with_last_executed end_clock c]> (configs db))
                 (articles (process_articles env clock 0 config_id records 0 0 db).2)
                 (next_article_id (process_articles env clock 0 config_id records 0 0 db).2)
  end.
Proof.
  unfold fetch_try, get_active_config.
  destruct (configs db !! config_id) as [c|] eqn:Hc; [|simpl; auto].
  destruct (is_active c); [|simpl; auto].
  destruct (str_or news_api_key (NEWS_API_KEY env)) as [api_key|]; [|simpl; auto].
  destruct (str_truthy api_key); [|simpl; auto].
  unfold fetch_with_key.
  destruct (requests_get env endpoint (request_params c api_key) 30) as [e|resp];
    [reflexivity|]. simpl.
  destruct (raise_for_status resp) as [e|[]]; [reflexivity|]. simpl.
  destruct (json resp) as [e|data]; [reflexivity|]. simpl.
  destruct (get data "status") as [e|status]; [reflexivity|]. simpl.
  destruct (not_ok status).
  { destruct (get_default data "message" (PStr "Unknown NewsAPI error")); simpl; auto. }
  destruct (get_default data "articles" (PList [])) as [e|v]; [reflexivity|]. simpl.
  destruct (iter v) as [e|records]; [reflexivity|].
  pose proof (process_articles_configs env clock config_id records 0 0 0 db) as Hcfg.
  destruct (process_articles env clock 0 config_id records 0 0 db) as [[n m] db1] eqn:Hloop.
  simpl in Hcfg. unfold save_last_executed. rewrite Hcfg, Hc. simpl.
  right. exists c, records. rewrite Hloop. simpl.
  split; [reflexivity|]. split; [reflexivity|].
  rewrite (alter_present _ _ _ c Hc). reflexivity.
Qed.

(** X9: an invocation raises nothing but the request exception, and one
    that raises has written nothing, so that running it again is safe; a
    run that returns has either left the store as it was or is a
    completed run: it returns the summary, has appended the rows it
    counts as created and has stamped the configuration. *)
Theorem fetch_outcomes (retries : Z) (clock : nat -> Z) (end_clock config_id : Z)
    (news_api_key : option string) db :
  match (fetch_news_for_config env retries clock end_clock config_id news_api_key db).1 with
  | Retry countdown e =>
      e = RequestException /\ countdown = 60 * (retries + 1) /\ retries < 3
      /\ (fetch_news_for_config env retries clock end_clock config_id news_api_key db).2 = db
  | Failed e =>
      e = RequestException /\ 3 <= retries
      /\ (fetch_news_for_config env retries clock end_clock config_id news_api_key db).2 = db
  | Returned result =>
      (fetch_news_for_config env retries clock end_clock config_id news_api_key db).2 = db
      \/ exists c total new duplicate_count,
          configs db !! config_id = Some c
          /\ result = success_result config_id (name c) total (Z.of_nat (length new))
                        duplicate_count
          /\ 0 <= duplicate_count /\ Z.of_nat (length new) + duplicate_count <= total
          /\ articles (fetch_news_for_config env retries clock end_clock config_id
                         news_api_key db).2 = (articles db ++ new)%list
          /\ configs (fetch_news_for_config env retries clock end_clock config_id
                        news_api_key db).2
             = <[config_id := with_last_executed end_clock c]> (configs db)
  end.
Proof.
  pose proof (fetch_try_cases clock end_clock config_id news_api_key db) as H.
  unfold fetch_news_for_config.
  destruct (fetch_try env clock end_clock config_id news_api_key db) as [[e|result] db'];
    simpl in H.
  - subst db'. destruct e; simpl; auto.
    unfold retry, max_retries. destruct (Z.ltb_spec 3 (retries + 1)); simpl.
    + repeat split; lia.
    + repeat split; lia.
  - simpl. destruct H as [->|(c & records & Hc & -> & ->)]; [left; reflexivity|].
    right.
    destruct (process_articles_appends clock 0 config_id records 0 0 db)
      as (new & H1 & H2 & H3 & H4 & _).
    exists c, (Z.of_nat (length records)), new,
      (process_articles env clock 0 config_id records 0 0 db).1.2.
    split; [exact Hc|]. rewrite H2. simpl.
    repeat split; try assumption; try lia.
Qed.

End Accounting.


(** ** The constraints of the store are kept *)

Section StoreOk.

Context (env : Env).
Implicit Types (db : DB) (c : NewsSearchConfig) (a : NewsArticle).

Lemma NoDup_map_filter {B} (f : NewsArticle -> B) (p : NewsArticle -> bool)
    (l : list NewsArticle) :
  List.NoDup (map f l) -> List.NoDup (map f (List.filter p l)).
Proof.
  induction l as [|a l IH]; simpl; [constructor|].
  intros Hnd. inversion Hnd as [|x xs Hx Hxs]; subst.
  destruct (p a); simpl; [|auto].
  constructor; [|auto].
  intros Hin. apply Hx. apply in_map_iff in Hin as (b & Hb & Hin).
  apply List.filter_In in Hin as [Hin _]. rewrite <- Hb. apply in_map. exact Hin.
Qed.

Lemma store_ok_filter (p : NewsArticle -> bool) db :
  store_ok db ->
  store_ok (mkDB (configs db) (List.filter p (articles db)) (next_article_id db)).
Proof.
  intros (Hu & Hi & Hf & Hk). unfold store_ok, url_unique, urls, ids_fresh, fk_valid in *.
  simpl. repeat split.
  - apply NoDup_ListNoDup, NoDup_map_filter, NoDup_ListNoDup, Hu.
  - apply NoDup_ListNoDup, NoDup_map_filter, NoDup_ListNoDup, Hi.
  - intros a [Hin _]%List.filter_In. auto.
  - intros a [Hin _]%List.filter_In. auto.
Qed.

Lemma store_ok_configs (m : gmap Z NewsSearchConfig) db :
  (forall k, is_Some (configs db !! k) -> is_Some (m !! k)) ->
  store_ok db -> store_ok (mkDB m (articles db) (next_article_id db)).
Proof.
  intros Hm (Hu & Hi & Hf & Hk). repeat split; try assumption.
  intros a Hin. apply Hm, Hk, Hin.
Qed.

Lemma cfn_store_ok now r cfg db :
  store_ok db -> store_ok (create_from_newsapi env now r cfg db).2.
Proof.
  intros Hok.
  pose proof (cfn_url_unique env now r cfg db (proj1 Hok)) as Hu'.
  destruct Hok as (Hu & Hi & Hf & Hk).
  destruct (cfn_cases env now r cfg db) as [e|u dflt a Hn Hg|u dflt a Hn Hg Hc];
    [repeat split; assumption..|].
  apply create_inr_key in Hc as (Hid & Hfk & _).
  simpl in Hu'. repeat split; [exact Hu'| | |]; simpl.
  - rewrite map_app. simpl. apply NoDup_ListNoDup, List.NoDup_app; repeat split.
    + apply NoDup_ListNoDup. exact Hi.
    + repeat constructor. intros [].
    + intros x Hx [<-|[]]. apply in_map_iff in Hx as (b & Hb & Hin).
      specialize (Hf b Hin). lia.
  - intros b [Hin|[<-|[]]]%in_app_or; [specialize (Hf b Hin)|]; simpl; lia.
  - intros b [Hin|[<-|[]]]%in_app_or; [apply Hk, Hin|exact Hfk].
Qed.

Lemma process_articles_store_ok clock i cfg records n m db :
  store_ok db -> store_ok (process_articles env clock i cfg records n m db).2.
Proof.
  revert i n m db. induction records as [|r rest IH]; intros i n m db Hok; simpl;
    [exact Hok|].
  pose proof (cfn_store_ok (clock i) r cfg db Hok) as H1.
  destruct (create_from_newsapi env (clock i) r cfg db) as [[e|[a [|]]] db1];
    apply IH; exact H1.
Qed.

(** X10: the ingestion keeps the constraints of the article table: after
    an invocation, whatever its outcome, URLs and keys are still unique,
    every key is below the sequence and every article belongs to a stored
    configuration. *)
Theorem fetch_store_ok (retries : Z) (clock : nat -> Z) (end_clock config_id : Z)
    (news_api_key : option string) db :
  store_ok db ->
  store_ok (fetch_news_for_config env retries clock end_clock config_id news_api_key db).2.
Proof.
  intros Hok.
  assert (H : store_ok (fetch_try env clock end_clock config_id news_api_key db).2).
  { pose proof (fetch_try_cases env clock end_clock config_id news_api_key db) as H.
    destruct (fetch_try env clock end_clock config_id news_api_key db) as [[e|result] db'];
      simpl in *; [subst; exact Hok|].
    destruct H as [->|(c & records & Hc & _ & ->)]; [exact Hok|].
    apply (store_ok_configs _
             (process_articles env clock 0 config_id records 0 0 db).2).
    - intros k. rewrite process_articles_configs, lookup_insert.
      destruct (decide (config_id = k)); [eauto|auto].
    - apply process_articles_store_ok, Hok. }
  unfold fetch_news_for_config.
  destruct (fetch_try env clock end_clock config_id news_api_key db) as [[e|result] db'];
    [destruct e|]; exact H.
Qed.

(** X11: when the cutoffs of two sweeps are datetimes and the second is
    the same or earlier, the second sweep finds nothing to delete: it
    returns the count 0 and leaves the store as the first sweep left it. *)
Theorem cleanup_twice (now now' : Z) (days_to_keep days_to_keep' : option Z) db :
  cutoff_fits now (default 30 days_to_keep) ->
  cutoff_fits now' (default 30 days_to_keep') ->
  now' - days_us (default 30 days_to_keep') <= now - days_us (default 30 days_to_keep) ->
  cleanup_old_articles env now' days_to_keep'
    (cleanup_old_articles env now days_to_keep db).2
  = (Returned (<["status" := PStr "success"]>
       (<["cutoff_date" :=
            PStr (isoformat env (now' - days_us (default 30 days_to_keep')))]>
          (<["deleted_count" := PInt 0]> ∅))),
     (cleanup_old_articles env now days_to_keep db).2).
Proof.
  intros Hfit Hfit' Hle.
  rewrite (sweep_run env now days_to_keep db Hfit). cbn [snd].
  rewrite (sweep_run env now' days_to_keep' _ Hfit'). cbn [articles configs next_article_id].
  set (cutoff := now - days_us (default 30 days_to_keep)) in *.
  set (cutoff' := now' - days_us (default 30 days_to_keep')) in *.
  assert (Hnone : forall l, List.filter (fun a => Article.created_at a <? cutoff')
            (List.filter (fun a => cutoff <=? Article.created_at a) l) = []).
  { induction l as [|a l IH]; simpl; [reflexivity|].
    destruct (Z.leb_spec cutoff (Article.created_at a)); simpl; [|exact IH].
    destruct (Z.ltb_spec (Article.created_at a) cutoff'); [lia|exact IH]. }
  assert (Hall : forall l, List.filter (fun a => cutoff' <=? Article.created_at a)
            (List.filter (fun a => cutoff <=? Article.created_at a) l)
            = List.filter (fun a => cutoff <=? Article.created_at a) l).
  { induction l as [|a l IH]; simpl; [reflexivity|].
    destruct (Z.leb_spec cutoff (Article.created_at a)); simpl; [|exact IH].
    destruct (Z.leb_spec cutoff' (Article.created_at a)); [|lia]. rewrite IH. reflexivity. }
  rewrite Hnone, Hall. reflexivity.
Qed.

(** X12: the sweep keeps the constraints of the store, the configurations
    and the key sequence, whether it deletes or returns its error result;
    when the cutoff is a datetime the count it returns and the rows left
    add up to the rows before, and otherwise no row is touched. *)
Theorem cleanup_store_ok (now : Z) (days_to_keep : option Z) db :
  (store_ok db -> store_ok (cleanup_old_articles env now days_to_keep db).2)
  /\ configs (cleanup_old_articles env now days_to_keep db).2 = configs db
  /\ next_article_id (cleanup_old_articles env now days_to_keep db).2 = next_article_id db
  /\ (cutoff_fits now (default 30 days_to_keep) ->
      exists deleted_count result,
        (cleanup_old_articles env now days_to_keep db).1 = Returned result
        /\ result !! "deleted_count" = Some (PInt deleted_count)
        /\ Z.of_nat (length (articles (cleanup_old_articles env now days_to_keep db).2))
           + deleted_count = Z.of_nat (length (articles db)))
  /\ (~ cutoff_fits now (default 30 days_to_keep) ->
      cleanup_old_articles env now days_to_keep db
      = (Returned (error_result ("Cleanup error: " ++ exn_str env OverflowError)), db)).
Proof.
  destruct (cutoff_fits_dec now (default 30 days_to_keep)) as [Hfit|Hno].
  - rewrite (sweep_run env now days_to_keep db Hfit). cbn [fst snd configs next_article_id].
    split; [apply store_ok_filter|]. split; [reflexivity|]. split; [reflexivity|].
    split; [|contradiction].
    intros _. eexists _, _. split; [reflexivity|]. split; [reflexivity|].
    cbn [articles]. induction (articles db) as [|a l IH]; simpl; [reflexivity|].
    destruct (Z.leb_spec (now - days_us (default 30 days_to_keep)) (Article.created_at a)),
             (Z.ltb_spec (Article.created_at a) (now - days_us (default 30 days_to_keep)));
      simpl length; lia.
  - rewrite (sweep_overflow env now days_to_keep db Hno). cbn [fst snd].
    split; [auto|]. split; [reflexivity|]. split; [reflexivity|].
    split; [contradiction|reflexivity].
Qed.

End StoreOk.

(** ** The fan-out and the listing of configurations *)

Section FanOut.

Context (env : Env).
Implicit Types (db : DB) (c : NewsSearchConfig).

#[local] Instance newer_config_total : Total newer_config.
Proof. intros x y. unfold newer_config. lia. Qed.

#[local] Instance newer_config_trans : Transitive newer_config.
Proof. intros x y z. unfold newer_config. lia. Qed.

Lemma active_configs_In db k c :
  In (k, c) (active_configs db) <-> configs db !! k = Some c /\ is_active c = true.
Proof.
  unfold active_configs. rewrite <- list_elem_of_In, merge_sort_Permutation.
  rewrite list_elem_of_In, List.filter_In, <- list_elem_of_In, elem_of_map_to_list.
  reflexivity.
Qed.

Lemma NoDup_fst_filter (p : Z * NewsSearchConfig -> bool) (l : list (Z * NewsSearchConfig)) :
  NoDup l.*1 -> NoDup (List.filter p l).*1.
Proof.
  induction l as [|x l IH]; simpl; [constructor|].
  intros [Hx Hl]%NoDup_cons. destruct (p x); simpl; [|auto].
  apply NoDup_cons. split; [|auto].
  intros Hin. apply Hx. apply list_elem_of_fmap in Hin as (y & -> & Hy).
  apply list_elem_of_fmap. exists y. split; [reflexivity|].
  apply list_elem_of_In. apply list_elem_of_In, List.filter_In in Hy. apply Hy.
Qed.

(** X13: [list_configs] returns the active configurations and no other,
    each once, the most recently created first. *)
Theorem list_configs_spec db :
  (forall k c, In (k, c) (list_configs db)
               <-> configs db !! k = Some c /\ is_active c = true)
  /\ NoDup (list_configs db).*1
  /\ StronglySorted newer_config (list_configs db).
Proof.
  unfold list_configs. split; [intros k c; apply active_configs_In|]. split.
  - unfold active_configs. rewrite merge_sort_Permutation.
    apply NoDup_fst_filter, NoDup_fst_map_to_list.
  - apply StronglySorted_merge_sort; apply _.
Qed.

Lemma schedule_loop_accepted (task_id : nat -> string) (i : nat)
    (news_api_key : option string) (active : list (Z * NewsSearchConfig))
    (results : list pyval) (queue : task_queue) :
  schedule_loop (fun j => inr (task_id j)) i news_api_key active results queue
  = (inr (results ++ imap (fun j kc => scheduled_entry kc.1 kc.2 (task_id (i + j)%nat))
                       active)%list,
     (queue ++ map (fun kc => (kc.1, news_api_key)) active)%list).
Proof.
  revert i results queue. induction active as [|[k c] rest IH]; intros i results queue.
  - simpl. rewrite !app_nil_r. reflexivity.
  - cbn [schedule_loop]. rewrite IH. cbn [imap map fst snd]. rewrite <- !app_assoc.
    rewrite Nat.add_0_r. do 3 f_equal. f_equal.
    apply imap_ext. intros j x _. simpl. rewrite Nat.add_succ_r. reflexivity.
Qed.

Lemma schedule_loop_refused (delay : nat -> exn + string) (task_id : nat -> string)
    (e : exn) (i k : nat) (news_api_key : option string)
    (active : list (Z * NewsSearchConfig)) (results : list pyval) (queue : task_queue) :
  (k < length active)%nat ->
  (forall j, (j < k)%nat -> delay (i + j)%nat = inr (task_id (i + j)%nat)) ->
  delay (i + k)%nat = inl e ->
  schedule_loop delay i news_api_key active results queue
  = (inl e, (queue ++ map (fun kc => (kc.1, news_api_key)) (take k active))%list).
Proof.
  revert i active results queue. induction k as [|k IH]; intros i active results queue Hlt Hok He.
  - destruct active as [|[k0 c] rest]; [simpl in Hlt; lia|].
    cbn [schedule_loop]. rewrite Nat.add_0_r in He. rewrite He. simpl.
    rewrite app_nil_r. reflexivity.
  - destruct active as [|[k0 c] rest]; [simpl in Hlt; lia|].
    cbn [schedule_loop]. specialize (Hok 0%nat ltac:(lia)) as H0.
    rewrite Nat.add_0_r in H0. rewrite H0.
    rewrite (IH (S i) rest).
    + cbn [take map fst]. rewrite <- app_assoc. reflexivity.
    + simpl in Hlt. lia.
    + intros j Hj. specialize (Hok (S j) ltac:(lia)).
      rewrite Nat.add_succ_r in Hok. exact Hok.
    + rewrite Nat.add_succ_r in He. exact He.
Qed.

(** X14: with no active configuration the fan-out hands nothing to the
    broker and reports zero configurations processed. *)
Theorem fan_out_none (delay : nat -> exn + string) (news_api_key : option string) db
    (queue : task_queue) :
  (forall k c, configs db !! k = Some c -> is_active c = false) ->
  fetch_news_for_all_active_configs env delay news_api_key db queue
  = (<["configs_processed" := PInt 0]>
       (<["message" := PStr "No active configurations"]> ∅), queue).
Proof.
  intros Hnone. unfold fetch_news_for_all_active_configs.
  destruct (active_configs db) as [|[k c] rest] eqn:E; [reflexivity|].
  assert (Hin : In (k, c) (active_configs db)) by (rewrite E; left; reflexivity).
  apply active_configs_In in Hin as [Hc Hact]. rewrite (Hnone k c Hc) in Hact. discriminate.
Qed.

(** X15: when the broker takes every call, the fan-out hands it exactly
    one ingestion per active configuration, each with the key it was
    given, after the calls already queued, and reports their number and
    their task ids. *)
Theorem fan_out_all (task_id : nat -> string) (news_api_key : option string) db
    (queue : task_queue) :
  active_configs db <> [] ->
  fetch_news_for_all_active_configs env (fun i => inr (task_id i)) news_api_key db queue
  = (<["status" := PStr "success"]>
       (<["scheduled_tasks" :=
            PList (imap (fun i kc => scheduled_entry kc.1 kc.2 (task_id i))
                     (active_configs db))]>
          (<["configs_processed" := PInt (Z.of_nat (length (active_configs db)))]>
             (<["message" :=
                  PStr ("Scheduled news fetch for "
                        ++ to_str env (PInt (Z.of_nat (length (active_configs db))))
                        ++ " configurations")]> ∅))),
     (queue ++ map (fun kc => (kc.1, news_api_key)) (active_configs db))%list).
Proof.
  intros Hne. unfold fetch_news_for_all_active_configs.
  destruct (active_configs db) as [|x rest] eqn:E; [congruence|].
  rewrite schedule_loop_accepted. cbn [app].
  rewrite length_imap. reflexivity.
Qed.

(** X16: when the broker refuses the call of index [k], the fan-out
    returns the error result; the [k] calls before it stay queued and no
    later configuration is scheduled. *)
Theorem fan_out_refused (delay : nat -> exn + string) (task_id : nat -> string) (e : exn)
    (k : nat) (news_api_key : option string) db (queue : task_queue) :
  (k < length (active_configs db))%nat ->
  (forall j, (j < k)%nat -> delay j = inr (task_id j)) ->
  delay k = inl e ->
  fetch_news_for_all_active_configs env delay news_api_key db queue
  = (error_result ("Error scheduling tasks: " ++ exn_str env e),
     (queue ++ map (fun kc => (kc.1, news_api_key)) (take k (active_configs db)))%list).
Proof.
  intros Hlt Hok He. unfold fetch_news_for_all_active_configs.
  destruct (active_configs db) as [|x rest] eqn:E; [simpl in Hlt; lia|].
  rewrite (schedule_loop_refused delay task_id e 0 k); auto.
Qed.

End FanOut.

(** ** The endpoints *)

Section Endpoints.

Context (env : Env).
Implicit Types (db : DB) (c : NewsSearchConfig) (a : NewsArticle).

#[local] Instance newer_article_total : Total newer_article.
Proof. intros x y. unfold newer_article. lia. Qed.

#[local] Instance newer_article_trans : Transitive newer_article.
Proof. intros x y z. unfold newer_article. lia. Qed.

(** X17: every endpoint that is given the key of a configuration answers
    404 when no such configuration is stored, and leaves the store as it
    was. *)
Theorem not_found (config_id : Z) db :
  configs db !! config_id = None ->
  get_config config_id db = inl Http404
  /\ get_config_articles config_id db = inl Http404
  /\ delete_config config_id db = (inl Http404, db)
  /\ (forall now save_clock,
        update_last_executed now save_clock config_id db = (inl Http404, db))
  /\ (forall config_accepts now payload,
        update_config config_accepts now config_id payload db = (inl Http404, db))
  /\ (forall now payload,
        p_search_config_id payload = config_id ->
        create_article env now payload db = (inl Http404, db))
  /\ (forall clock articles_data,
        create_articles_from_newsapi env clock config_id articles_data db
        = (inl Http404, db)).
Proof.
  intros H.
  unfold get_config, get_config_articles, delete_config, update_last_executed,
    update_config, create_article, create_articles_from_newsapi, get_object_or_404.
  rewrite H. repeat split; try reflexivity.
  intros now payload ->. rewrite H. reflexivity.
Qed.

(** X18: deleting a configuration deletes it and its articles and nothing
    else: the other configurations and the articles of the others stay as
    they are, and the constraints of the store are kept. *)
Theorem delete_config_cascade (config_id : Z) db c :
  configs db !! config_id = Some c ->
  (delete_config config_id db).1 = inr {[ "success" := PBool true ]}
  /\ configs (delete_config config_id db).2 !! config_id = None
  /\ (forall k, k <> config_id ->
        configs (delete_config config_id db).2 !! k = configs db !! k)
  /\ (forall a, In a (articles (delete_config config_id db).2)
                <-> In a (articles db) /\ Article.search_config a <> config_id)
  /\ (store_ok db -> store_ok (delete_config config_id db).2).
Proof.
  intros Hc. unfold delete_config, get_object_or_404. rewrite Hc. simpl.
  split; [reflexivity|]. split; [apply lookup_delete_eq|].
  split; [intros k Hk; apply lookup_delete_ne; congruence|].
  assert (Hin : forall a,
    In a (List.filter (fun a => negb (Article.search_config a =? config_id)) (articles db))
    <-> In a (articles db) /\ Article.search_config a <> config_id).
  { intros a. rewrite List.filter_In.
    destruct (Z.eqb_spec (Article.search_config a) config_id); simpl; split;
      intros [H1 H2]; split; auto; try discriminate; try contradiction. }
  split; [exact Hin|].
  intros Hok.
  pose proof (store_ok_filter (fun a => negb (Article.search_config a =? config_id)) db Hok)
    as (Hu & Hi & Hf & Hk).
  repeat split; try assumption.
  intros a Ha. simpl in *. apply Hin in Ha as [Ha Hne].
  rewrite lookup_delete_ne by congruence. destruct Hok as (_ & _ & _ & Hfk). apply Hfk, Ha.
Qed.

(** X19: after a configuration is deleted the ingestion finds it
    unavailable and writes nothing, and the endpoints that name it answer
    404. *)
Theorem deleted_config_unavailable (config_id : Z) db c (retries : Z) (clock : nat -> Z)
    (end_clock : Z) (news_api_key : option string)
    (articles_data : list (list (string * pyval))) :
  configs db !! config_id = Some c ->
  fetch_news_for_config env retries clock end_clock config_id news_api_key
    (delete_config config_id db).2
  = (Returned (error_result "Configuration not found or inactive"),
     (delete_config config_id db).2)
  /\ create_articles_from_newsapi env clock config_id articles_data
       (delete_config config_id db).2
     = (inl Http404, (delete_config config_id db).2)
  /\ get_config config_id (delete_config config_id db).2 = inl Http404
  /\ get_config_articles config_id (delete_config config_id db).2 = inl Http404.
Proof.
  intros Hc.
  assert (Hgone : configs (delete_config config_id db).2 !! config_id = None).
  { unfold delete_config, get_object_or_404. rewrite Hc. apply lookup_delete_eq. }
  set (db' := (delete_config config_id db).2) in *.
  unfold fetch_news_for_config, fetch_try, get_active_config,
    create_articles_from_newsapi, get_config, get_config_articles, get_object_or_404.
  rewrite Hgone. auto.
Qed.

Lemma get_or_create_found now u dflt db a :
  get_by_url env u db = Some a -> get_or_create env now u dflt db = (inr (a, false), db).
Proof. intros H. unfold get_or_create. rewrite H. reflexivity. Qed.

Lemma get_or_create_after now u dflt db a created db1 :
  get_or_create env now u dflt db = (inr (a, created), db1) ->
  get_by_url env u db1 = Some a /\ configs db1 = configs db.
Proof.
  unfold get_or_create.
  destruct (get_by_url env u db) as [a0|] eqn:Hg.
  - intros [= <- <- <-]. auto.
  - destruct (create env now u dflt db) as [[e|a1] db'] eqn:Hc; [discriminate|].
    intros [= <- <- <-].
    apply create_inr in Hc as (-> & Hurl & _).
    split; [|reflexivity].
    pose proof (get_by_url_fresh env _ _ _ Hg Hurl) as Hfresh.
    unfold get_by_url. rewrite Hurl. simpl.
    apply find_url_app_new; [exact Hfresh|reflexivity].
Qed.

(** X20: [create_article] is idempotent on the URL and shares its key
    with the ingestion: once it has answered with an article, every later
    [create_article] with that URL, whatever its other fields, and every
    readable provider record with that URL, is answered with the same
    article and leaves the store as it is. *)
Theorem create_article_dedup (now : Z) (payload : ArticlePayload) db a db1 :
  create_article env now payload db = (inr a, db1) ->
  (forall now' payload',
     p_url payload' = p_url payload ->
     is_Some (configs db1 !! p_search_config_id payload') ->
     create_article env now' payload' db1 = (inr a, db1))
  /\ (forall now' cfg d,
        readable d = true -> assoc "url" d = Some (PStr (p_url payload)) ->
        create_from_newsapi env now' (PDict d) cfg db1 = (inr (a, false), db1)).
Proof.
  unfold create_article at 1.
  destruct (get_object_or_404 (p_search_config_id payload) db) as [e|c]; [discriminate|].
  destruct (get_or_create env now (PStr (p_url payload)) _ db) as [[e|[a0 created]] db0] eqn:Hg;
    [discriminate|].
  intros [= <- <-]. apply get_or_create_after in Hg as [Hfound _].
  split.
  - intros now' payload' Hurl [c' Hc']. unfold create_article, get_object_or_404.
    rewrite Hc', Hurl. rewrite (get_or_create_found _ _ _ _ _ Hfound). reflexivity.
  - intros now' cfg d Hr Hurl.
    destruct (readable_normalize d cfg Hr) as (u & dflt & _ & Hn).
    assert (u = PStr (p_url payload)) as -> by (eapply normalize_url; eassumption).
    unfold create_from_newsapi. rewrite Hn. apply get_or_create_found, Hfound.
Qed.

Lemma merge_sort_In (l : list NewsArticle) a :
  In a (merge_sort newer_article l) <-> In a l.
Proof. rewrite <- !list_elem_of_In, merge_sort_Permutation. reflexivity. Qed.

(** X21: an article created through [create_article] under a new URL
    carries the fields of the request as they are, is unread, is stamped
    with the clock, and is listed among the articles of its configuration. *)
Theorem create_article_stored (now : Z) (payload : ArticlePayload) db a db1 :
  ~ In (p_url payload) (urls db) ->
  create_article env now payload db = (inr a, db1) ->
  Article.url a = p_url payload
  /\ Article.title a = p_title payload
  /\ Article.description a = p_description payload
  /\ Article.url_to_image a = p_url_to_image payload
  /\ parse_datetime env (p_published_at payload) = Some (Article.published_at a)
  /\ Article.content a = p_content payload
  /\ Article.source_id a = p_source_id payload
  /\ Article.source_name a = p_source_name payload
  /\ Article.author a = p_author payload
  /\ Article.search_config a = p_search_config_id payload
  /\ Article.created_at a = now
  /\ Article.is_read a = false
  /\ articles db1 = (articles db ++ [a])%list
  /\ exists l, get_config_articles (p_search_config_id payload) db1 = inr l /\ In a l.
Proof.
  intros Hfresh. unfold create_article.
  destruct (get_object_or_404 (p_search_config_id payload) db) as [e|c] eqn:Hcfg;
    [discriminate|].
  unfold get_or_create.
  assert (get_by_url env (PStr (p_url payload)) db = None) as ->.
  { unfold get_by_url. simpl.
    destruct (find _ (articles db)) as [b|] eqn:E; [|reflexivity].
    apply find_url_Some in E as [Hin Hu]. exfalso. apply Hfresh.
    unfold urls. rewrite <- Hu. apply in_map. exact Hin. }
  destruct (create env now (PStr (p_url payload)) _ db) as [[e|a0] db0] eqn:Hc;
    [discriminate|].
  intros [= <- <-].
  unfold create in Hc. simpl in Hc.
  destruct (parse_datetime env (p_published_at payload)) as [t|]; [|discriminate].
  simpl in Hc. unfold get_object_or_404 in Hcfg.
  destruct (configs db !! p_search_config_id payload) as [c0|] eqn:Hl; [|discriminate].
  destruct (db_accepts env _); [|discriminate].
  injection Hc as <- <-. simpl.
  assert (Hopt : forall o, char_to_python env (opt_str o) = o) by (intros [s|]; reflexivity).
  rewrite !Hopt. repeat split.
  unfold get_config_articles, get_object_or_404. simpl. rewrite Hl.
  eexists. split; [reflexivity|].
  apply merge_sort_In, List.filter_In. split.
  - apply in_or_app. right. left. reflexivity.
  - simpl. apply Z.eqb_refl.
Qed.

(** X22: the articles of a stored configuration are listed completely and
    alone, the most recently published first. *)
Theorem get_config_articles_spec (config_id : Z) db c :
  configs db !! config_id = Some c ->
  exists l,
    get_config_articles config_id db = inr l
    /\ (forall a, In a l <-> In a (articles db) /\ Article.search_config a = config_id)
    /\ StronglySorted newer_article l
    /\ l ≡ₚ List.filter (fun a => Article.search_config a =? config_id) (articles db).
Proof.
  intros Hc. unfold get_config_articles, get_object_or_404. rewrite Hc.
  eexists. split; [reflexivity|]. split; [|split].
  - intros a. rewrite merge_sort_In, List.filter_In, Z.eqb_eq. reflexivity.
  - apply StronglySorted_merge_sort; apply _.
  - apply merge_sort_Permutation.
Qed.

(** The sort by publish time is one of the orders the backend may give. *)
Lemma merge_sort_ordered (rows : list NewsArticle) :
  ordered_by_published rows (merge_sort newer_article rows).
Proof.
  split; [apply merge_sort_Permutation|apply StronglySorted_merge_sort; apply _].
Qed.

(** X23: whatever order the backend gives to articles of one publish
    time, [list_articles] refuses a negative limit and a limit that is no
    64-bit integer; otherwise it returns stored articles, as many as the
    limit allows (50 when none is given), the most recently published
    first, and no article left out was published after one that is
    returned. *)
Theorem list_articles_spec (order_by : list NewsArticle -> list NewsArticle)
    (limit : option Z) db :
  ordered_by_published (articles db) (order_by (articles db)) ->
  (default 50 limit < 0 -> list_articles order_by limit db = inl NegativeIndexing)
  /\ (limit_max < default 50 limit -> list_articles order_by limit db = inl LimitOutOfRange)
  /\ (0 <= default 50 limit <= limit_max ->
      exists l,
        list_articles order_by limit db = inr l
        /\ length l = Nat.min (Z.to_nat (default 50 limit)) (length (articles db))
        /\ StronglySorted newer_article l
        /\ (forall a, In a l -> In a (articles db))
        /\ exists rest,
             (l ++ rest)%list ≡ₚ articles db
             /\ forall a b, In a l -> In b rest ->
                  Article.published_at b <= Article.published_at a).
Proof.
  intros [Hperm Hsorted]. unfold list_articles. split; [|split]; intros H.
  - destruct (Z.ltb_spec (default 50 limit) 0); [reflexivity|lia].
  - destruct (Z.ltb_spec (default 50 limit) 0); [unfold limit_max in H; lia|].
    destruct (Z.ltb_spec limit_max (default 50 limit)); [reflexivity|lia].
  - destruct (Z.ltb_spec (default 50 limit) 0); [lia|].
    destruct (Z.ltb_spec limit_max (default 50 limit)); [lia|].
    set (n := Z.to_nat (default 50 limit)).
    set (sorted := order_by (articles db)) in *.
    assert (Hs : StronglySorted newer_article (take n sorted ++ drop n sorted))
      by (rewrite take_drop; exact Hsorted).
    eexists. split; [reflexivity|]. split; [|split; [|split]].
    + rewrite length_take, (Permutation_length Hperm). reflexivity.
    + eapply StronglySorted_app_1_l. exact Hs.
    + intros a Ha. apply list_elem_of_In. rewrite <- Hperm. apply list_elem_of_In.
      rewrite <- (take_drop n sorted). apply in_or_app. left. exact Ha.
    + exists (drop n sorted). split.
      * rewrite take_drop. exact Hperm.
      * intros a b Ha Hb.
        apply (StronglySorted_app_1_elem_of newer_article _ _ a b Hs);
          apply list_elem_of_In; assumption.
Qed.

End Endpoints.

(** ** Updating a configuration, and the constraints under the endpoints *)

Section Update.

Context (env : Env).
Implicit Types (db : DB) (c : NewsSearchConfig) (a : NewsArticle).

(** X24: [update_config] refuses a request without keywords or without
    sources and then changes nothing; when it succeeds the row keeps its
    owner, its creation time and its last-executed time, takes the fields
    of the request, is stamped as updated, and no other configuration and
    no article is touched. *)
Theorem update_config_spec (config_accepts : NewsSearchConfig -> bool) (now config_id : Z)
    (payload : ConfigPayload) db c :
  configs db !! config_id = Some c ->
  (p_keywords payload = None \/ p_sources payload = None ->
   update_config config_accepts now config_id payload db = (inl IntegrityError, db))
  /\ (forall c' db1,
        update_config config_accepts now config_id payload db = (inr c', db1) ->
        user c' = user c /\ created_at c' = created_at c
        /\ last_executed c' = last_executed c /\ updated_at c' = now
        /\ name c' = p_name payload /\ Some (keywords c') = p_keywords payload
        /\ country c' = p_country payload /\ category c' = p_category payload
        /\ Some (sources c') = p_sources payload /\ sort_by c' = p_sort_by payload
        /\ frequency c' = p_frequency payload /\ is_active c' = p_is_active payload
        /\ configs db1 = <[config_id := c']> (configs db)
        /\ articles db1 = articles db).
Proof.
  intros Hc. unfold update_config, get_object_or_404. rewrite Hc. split.
  - intros [-> | ->]; [reflexivity|]. destruct (p_keywords payload); reflexivity.
  - intros c' db1.
    destruct (p_keywords payload) as [kw|]; [|discriminate].
    destruct (p_sources payload) as [so|]; [|discriminate].
    destruct (config_accepts _); [|discriminate].
    intros [= <- <-]. simpl. repeat split.
Qed.

(** X25: a configuration switched off through [update_config] is still
    returned by [get_config], is no longer listed by [list_configs], is
    skipped by the fan-out and is unavailable to the ingestion, which
    writes nothing. *)
Theorem deactivated_config (config_accepts : NewsSearchConfig -> bool) (now config_id : Z)
    (payload : ConfigPayload) db c' db1 (retries : Z) (clock : nat -> Z) (end_clock : Z)
    (news_api_key : option string) :
  update_config config_accepts now config_id payload db = (inr c', db1) ->
  p_is_active payload = false ->
  get_config config_id db1 = inr c'
  /\ ~ In config_id (list_configs db1).*1
  /\ ~ In config_id (active_configs db1).*1
  /\ fetch_news_for_config env retries clock end_clock config_id news_api_key db1
     = (Returned (error_result "Configuration not found or inactive"), db1).
Proof.
  unfold update_config, get_object_or_404.
  destruct (configs db !! config_id) as [c|]; [|discriminate].
  destruct (p_keywords payload) as [kw|]; [|discriminate].
  destruct (p_sources payload) as [so|]; [|discriminate].
  destruct (config_accepts _); [|discriminate].
  intros [= <- <-] Hoff.
  assert (Hnot : ~ In config_id
            (active_configs
               (mkDB (<[config_id := mkConfig (user c) (p_name payload) kw (p_country payload)
                          (p_category payload) so (p_sort_by payload) (p_frequency payload)
                          (p_is_active payload) (created_at c) now (last_executed c)]>
                        (configs db)) (articles db) (next_article_id db))).*1).
  { intros Hin. apply in_map_iff in Hin as ([k c0] & Hk & Hin). simpl in Hk. subst k.
    apply active_configs_In in Hin as [Hl Ha]. simpl in Hl.
    rewrite lookup_insert_eq in Hl. injection Hl as <-. simpl in Ha. congruence. }
  unfold get_config, get_object_or_404, list_configs. cbn [configs].
  rewrite lookup_insert_eq.
  split; [reflexivity|]. split; [exact Hnot|]. split; [exact Hnot|].
  unfold fetch_news_for_config, fetch_try, get_active_config. cbn [configs].
  rewrite lookup_insert_eq. cbn [is_active]. rewrite Hoff. reflexivity.
Qed.

Lemma get_or_create_store_ok now u dflt db :
  store_ok db -> store_ok (get_or_create env now u dflt db).2.
Proof.
  intros Hok. unfold get_or_create.
  destruct (get_by_url env u db) as [a|] eqn:Hg; [exact Hok|].
  destruct (create env now u dflt db) as [[e|a] db'] eqn:Hc; simpl.
  - apply create_inl in Hc as ->. exact Hok.
  - destruct Hok as (Hu & Hi & Hf & Hk).
    pose proof (create_inr_key env _ _ _ _ _ _ Hc) as (Hid & Hfk & _).
    apply create_inr in Hc as (-> & Hurl & _).
    pose proof (get_by_url_fresh env _ _ _ Hg Hurl) as Hfresh.
    unfold store_ok, url_unique, urls, ids_fresh, fk_valid in *. simpl.
    rewrite !map_app. simpl. repeat split.
    + apply NoDup_ListNoDup, List.NoDup_app; repeat split.
      * apply NoDup_ListNoDup. exact Hu.
      * repeat constructor. intros [].
      * intros x Hx [<-|[]]. exact (Hfresh Hx).
    + apply NoDup_ListNoDup, List.NoDup_app; repeat split.
      * apply NoDup_ListNoDup. exact Hi.
      * repeat constructor. intros [].
      * intros x Hx [<-|[]]. apply in_map_iff in Hx as (b & Hb & Hin).
        specialize (Hf b Hin). lia.
    + intros b [Hin|[<-|[]]]%in_app_or; [specialize (Hf b Hin)|]; simpl; lia.
    + intros b [Hin|[<-|[]]]%in_app_or; [apply Hk, Hin|exact Hfk].
Qed.

Lemma create_articles_loop_store_ok clock i cfg batch acc db :
  store_ok db -> store_ok (create_articles_loop env clock i cfg batch acc db).2.
Proof.
  revert i acc db. induction batch as [|r rest IH]; intros i acc db Hok; simpl;
    [exact Hok|].
  pose proof (cfn_store_ok env (clock i) (PDict r) cfg db Hok) as H1.
  destruct (create_from_newsapi env (clock i) (PDict r) cfg db) as [[e|[a b]] db1];
    [exact H1|apply IH; exact H1].
Qed.

(** X26: every endpoint that writes keeps the constraints of the store:
    URLs and keys stay unique, keys stay below the sequence and every
    article belongs to a stored configuration, whether the request
    succeeds or not. *)
Theorem endpoints_store_ok db :
  store_ok db ->
  (forall clock config_id articles_data,
     store_ok (create_articles_from_newsapi env clock config_id articles_data db).2)
  /\ (forall now payload, store_ok (create_article env now payload db).2)
  /\ (forall config_id, store_ok (delete_config config_id db).2)
  /\ (forall now save_clock config_id,
        store_ok (update_last_executed now save_clock config_id db).2)
  /\ (forall config_accepts now config_id payload,
        store_ok (update_config config_accepts now config_id payload db).2).
Proof.
  intros Hok. split; [|split; [|split; [|split]]].
  - intros clock config_id articles_data. unfold create_articles_from_newsapi.
    destruct (configs db !! config_id); [|exact Hok].
    apply create_articles_loop_store_ok, Hok.
  - intros now payload. unfold create_article.
    destruct (get_object_or_404 (p_search_config_id payload) db); [exact Hok|].
    match goal with |- context [get_or_create env now ?u ?d db] =>
      pose proof (get_or_create_store_ok now u d db Hok) as H;
      destruct (get_or_create env now u d db) as [[e|[a b]] db1] end; exact H.
  - intros config_id. unfold delete_config, get_object_or_404.
    destruct (configs db !! config_id) as [c|] eqn:Hc; [|exact Hok].
    pose proof (store_ok_filter (fun a => negb (Article.search_config a =? config_id)) db Hok)
      as (Hu & Hi & Hf & Hk).
    repeat split; try assumption.
    intros a Ha. simpl in *. pose proof Ha as Ha'. apply List.filter_In in Ha' as [Hin Hne].
    destruct (Z.eqb_spec (Article.search_config a) config_id); [discriminate|].
    rewrite lookup_delete_ne by congruence. destruct Hok as (_ & _ & _ & Hfk). apply Hfk, Hin.
  - intros now save_clock config_id. unfold update_last_executed, get_object_or_404.
    destruct (configs db !! config_id) as [c|] eqn:Hc; [|exact Hok].
    apply (store_ok_configs _ db); [|exact Hok].
    intros k. rewrite lookup_insert. destruct (decide (config_id = k)); eauto.
  - intros config_accepts now config_id payload. unfold update_config, get_object_or_404.
    destruct (configs db !! config_id) as [c|] eqn:Hc; [|exact Hok].
    destruct (p_keywords payload); [|exact Hok].
    destruct (p_sources payload); [|exact Hok].
    destruct (config_accepts _); [|exact Hok].
    apply (store_ok_configs _ db); [|exact Hok].
    intros k. rewrite lookup_insert. destruct (decide (config_id = k)); eauto.
Qed.

End Update.

(** ** Ingesting again *)

Section Again.

Context (env : Env).
Implicit Types (db : DB) (a : NewsArticle).

Lemma find_url_app s (l new : list NewsArticle) a :
  find (fun a => String.eqb (Article.url a) s) l = Some a ->
  find (fun a => String.eqb (Article.url a) s) (l ++ new) = Some a.
Proof.
  induction l as [|b l IH]; simpl; [discriminate|].
  destruct (String.eqb (Article.url b) s); [auto|exact IH].
Qed.

Lemma cfn_found now r cfg db a created db1 :
  create_from_newsapi env now r cfg db = (inr (a, created), db1) ->
  exists u dflt, normalize r cfg = inr (u, dflt) /\ get_by_url env u db1 = Some a.
Proof.
  intros H. destruct (cfn_again env now now r cfg cfg db a created db1 H) as [_ H1].
  pose proof (cfn_cases env now r cfg db1) as Hs. rewrite H1 in Hs. simpl in Hs.
  inversion Hs as [|u dflt a' Hn Hg|]; subst. eauto.
Qed.

(** A record answered once at [db] is a duplicate in every store that
    extends the one it left. *)
Lemma cfn_duplicate_later now r cfg db a created db1 :
  create_from_newsapi env now r cfg db = (inr (a, created), db1) ->
  forall now' cfg' db2 new,
    articles db2 = (articles db1 ++ new)%list ->
    create_from_newsapi env now' r cfg' db2 = (inr (a, false), db2).
Proof.
  intros H now' cfg' db2 new Hext.
  destruct (cfn_found _ _ _ _ _ _ _ H) as (u & dflt & Hn & Hg).
  destruct (normalize_any_config r cfg cfg' u dflt Hn) as [dflt' Hn'].
  unfold create_from_newsapi, get_or_create. rewrite Hn'.
  assert (get_by_url env u db2 = Some a) as ->; [|reflexivity].
  unfold get_by_url in *. destruct (char_to_python env u) as [s|]; [|discriminate].
  rewrite Hext. apply find_url_app, Hg.
Qed.

Lemma process_articles_all_answered clock i cfg records n m db :
  (process_articles env clock i cfg records n m db).1.1 - n
  + ((process_articles env clock i cfg records n m db).1.2 - m)
  = Z.of_nat (length records) ->
  forall r, In r records ->
    exists a, forall now' cfg' db2 new,
      articles db2
      = (articles (process_articles env clock i cfg records n m db).2 ++ new)%list ->
      create_from_newsapi env now' r cfg' db2 = (inr (a, false), db2).
Proof.
  revert i n m db. induction records as [|r0 rest IH]; intros i n m db Hall r Hin;
    [destruct Hin|].
  cbn [process_articles] in *.
  destruct (create_from_newsapi env (clock i) r0 cfg db) as [[e|[a b]] db1] eqn:Hc.
  - exfalso.
    destruct (process_articles_appends env clock (S i) cfg rest n m db1)
      as (new & _ & H2 & H3 & H4 & _).
    cbn [length] in Hall. lia.
  - assert (Hrest : exists n1 m1, n1 - n + (m1 - m) = 1
              /\ process_articles env clock (S i) cfg rest n1 m1 db1
                 = (if b then process_articles env clock (S i) cfg rest (n + 1) m db1
                    else process_articles env clock (S i) cfg rest n (m + 1) db1)).
    { destruct b; [exists (n + 1), m|exists n, (m + 1)]; split; try reflexivity; lia. }
    destruct Hrest as (n1 & m1 & H1 & Heq).
    assert (Hall' : (process_articles env clock (S i) cfg rest n1 m1 db1).1.1 - n1
              + ((process_articles env clock (S i) cfg rest n1 m1 db1).1.2 - m1)
              = Z.of_nat (length rest)).
    { rewrite Heq. destruct b; cbn [length] in Hall; lia. }
    replace (match b with
             | true => process_articles env clock (S i) cfg rest (n + 1) m db1
             | false => process_articles env clock (S i) cfg rest n (m + 1) db1
             end) with (process_articles env clock (S i) cfg rest n1 m1 db1)
      by (destruct b; exact Heq).
    destruct Hin as [<-|Hin].
    + exists a. intros now' cfg' db2 new Hext.
      destruct (process_articles_appends env clock (S i) cfg rest n1 m1 db1)
        as (new1 & Happ & _).
      eapply (cfn_duplicate_later _ _ _ _ _ _ _ Hc now' cfg' db2 (new1 ++ new)%list).
      rewrite Hext, Happ, <- app_assoc. reflexivity.
    + exact (IH (S i) n1 m1 db1 Hall' r Hin).
Qed.

Lemma process_articles_all_duplicates clock i cfg records n m db :
  (forall r, In r records ->
     exists a, create_from_newsapi env (clock 0%nat) r cfg db = (inr (a, false), db)) ->
  process_articles env clock i cfg records n m db
  = ((n, m + Z.of_nat (length records)), db).
Proof.
  revert i n m. induction records as [|r rest IH]; intros i n m Hdup.
  - simpl. rewrite Z.add_0_r. reflexivity.
  - cbn [process_articles].
    destruct (Hdup r (or_introl eq_refl)) as [a Ha].
    rewrite (cfn_duplicate_later _ _ _ _ _ _ _ Ha (clock i) cfg db []%list)
      by (rewrite app_nil_r; reflexivity).
    rewrite IH by (intros r' Hr'; apply Hdup; right; exact Hr').
    cbn [length]. do 2 f_equal. lia.
Qed.

(** X27: ingesting a batch again stores nothing: when every record of a
    batch was created or found, a second pass over the batch, at any time
    and for any configuration, counts every record as a duplicate and
    leaves the store as the first pass left it. *)
Theorem reingest_idempotent (clock clock' : nat -> Z) (config_id config_id' : Z)
    (records : list pyval) db :
  (process_articles env clock 0 config_id records 0 0 db).1.1
  + (process_articles env clock 0 config_id records 0 0 db).1.2
  = Z.of_nat (length records) ->
  process_articles env clock' 0 config_id' records 0 0
    (process_articles env clock 0 config_id records 0 0 db).2
  = ((0, Z.of_nat (length records)), (process_articles env clock 0 config_id records 0 0 db).2).
Proof.
  intros Hall.
  rewrite process_articles_all_duplicates; [reflexivity|].
  intros r Hr.
  destruct (process_articles_all_answered clock 0 config_id records 0 0 db) with (r := r)
    as [a Ha]; [lia|exact Hr|].
  exists a. apply (Ha _ _ _ []%list). rewrite app_nil_r. reflexivity.
Qed.

Lemma create_articles_loop_returns clock cfg batch i acc db created db' :
  create_articles_loop env clock i cfg batch acc db = (inr created, db') ->
  exists news,
    created = (acc ++ news)%list
    /\ Forall2 (fun r a =>
         In a (articles db')
         /\ forall s, assoc "url" r = Some (PStr s) -> Article.url a = s) batch news.
Proof.
  revert i acc db. induction batch as [|r rest IH]; intros i acc db; simpl.
  - intros [= <- <-]. exists []. rewrite app_nil_r. split; [reflexivity|constructor].
  - destruct (create_from_newsapi env (clock i) (PDict r) cfg db) as [[e|[a b]] db1] eqn:Hc;
      [discriminate|].
    intros H. pose proof H as Hloop.
    apply IH in H as (news & -> & HF).
    exists (a :: news). rewrite <- app_assoc. split; [reflexivity|].
    constructor; [|exact HF]. split.
    + destruct (cfn_again env (clock i) (clock i) _ cfg cfg _ _ _ _ Hc) as [Hin _].
      pose proof (create_articles_loop_agrees env clock cfg rest (S i) _ 0 0 db1 _ _ Hloop)
        as Hag.
      destruct (process_articles_appends env clock (S i) cfg (map PDict rest) 0 0 db1)
        as (new & Happ & _).
      rewrite Hag in Happ. rewrite Happ. apply in_or_app. left. exact Hin.
    + intros s Hs. destruct (cfn_found _ _ _ _ _ _ _ Hc) as (u & dflt & Hn & Hg).
      assert (u = PStr s) as -> by (eapply normalize_url; eassumption).
      apply get_by_url_Some in Hg as [_ Hg]. simpl in Hg. congruence.
Qed.

(** X28: when the bulk-create request completes, it returns one article
    per record, in the order of the batch; each is stored and carries the
    URL of its record. *)
Theorem bulk_create_returns (clock : nat -> Z) (search_config_id : Z)
    (articles_data : list (list (string * pyval))) db
    (created_articles : list NewsArticle) db' :
  create_articles_from_newsapi env clock search_config_id articles_data db
  = (inr created_articles, db') ->
  Forall2 (fun r a =>
      In a (articles db')
      /\ forall s, assoc "url" r = Some (PStr s) -> Article.url a = s)
    articles_data created_articles.
Proof.
  unfold create_articles_from_newsapi.
  destruct (configs db !! search_config_id); [|discriminate].
  intros H. apply create_articles_loop_returns in H as (news & -> & HF). exact HF.
Qed.

End Again.

Lemma reingest_idempotent_witness :
  process_articles demo_env demo_clock 0 2 [PDict demo_record; PDict demo_record] 0 0 demo_db1
  = ((0, 2), demo_db1).
Proof.
  pose proof (reingest_idempotent demo_env demo_clock demo_clock 1 2
                [PDict demo_record; PDict demo_record] demo_db0) as H.
  vm_compute in H. vm_compute. apply H. reflexivity.
Defined.

Lemma bulk_create_returns_witness :
  Forall2 (fun r a =>
      In a (articles demo_db1)
      /\ forall s, assoc "url" r = Some (PStr s) -> Article.url a = s)
    [demo_record; demo_record] [demo_article; demo_article].
Proof.
  apply (bulk_create_returns demo_env demo_clock 1 [demo_record; demo_record] demo_db0).
  vm_compute. reflexivity.
Defined.

(** ** The further properties at concrete inputs *)

Lemma demo_db0_ok : store_ok demo_db0.
Proof.
  repeat split; try apply NoDup_nil_2; intros a [].
Qed.

Lemma demo_db1_ok : store_ok demo_db1.
Proof.
  repeat split; try (apply NoDup_singleton).
  - intros a [<-|[]]. vm_compute. reflexivity.
  - intros a [<-|[]]. vm_compute. eexists. reflexivity.
Qed.

Lemma get_sources_list_clean_witness :
  "cnn" <> "" /\ string_forall not_comma "cnn" = true
  /\ starts_tight "cnn" = true /\ ends_tight "cnn" = true /\ strip "cnn" = "cnn".
Proof.
  apply (get_sources_list_clean (config_with "" "us" "general" " bbc-news , ,cnn,") "cnn").
  vm_compute. right. left. reflexivity.
Defined.

Lemma missing_key_witness :
  fetch_news_for_config demo_env 0 demo_clock 7 1 (Some "") demo_db0
  = (Returned (error_result "No NewsAPI key configured"), demo_db0).
Proof.
  apply (missing_key demo_env 0 demo_clock 7 1 (Some "") demo_db0 demo_config).
  - reflexivity.
  - reflexivity.
  - right. reflexivity.
  - left. reflexivity.
Defined.

Lemma explicit_key_wins_witness :
  fetch_news_for_config
    (with_settings_key (Some "other") (env_with_response (inr response_200_ok)))
    0 demo_clock 7 1 (Some "key") demo_db0
  = fetch_news_for_config (env_with_response (inr response_200_ok))
      0 demo_clock 7 1 (Some "key") demo_db0.
Proof.
  apply (explicit_key_wins (env_with_response (inr response_200_ok)) 0 demo_clock 7 1 "key"
           (Some "other") demo_db0).
  discriminate.
Defined.

Lemma network_failure_witness :
  fetch_news_for_config env_unreachable 1 demo_clock 7 1 (Some "key") demo_db0
  = (Retry 120 RequestException, demo_db0)
  /\ fetch_news_for_config env_unreachable 3 demo_clock 7 1 (Some "key") demo_db0
     = (Failed RequestException, demo_db0).
Proof.
  split.
  - apply (proj1 (network_failure env_unreachable 1 demo_clock 7 1 (Some "key") demo_db0
                    demo_config "key" eq_refl eq_refl eq_refl eq_refl eq_refl)). lia.
  - apply (proj2 (network_failure env_unreachable 3 demo_clock 7 1 (Some "key") demo_db0
                    demo_config "key" eq_refl eq_refl eq_refl eq_refl eq_refl)). lia.
Defined.

Lemma malformed_response_witness :
  fetch_news_for_config (env_with_response (inr response_200_list)) 0 demo_clock 7 1
    (Some "key") demo_db0
  = (Returned (error_result "Unexpected error: error"), demo_db0)
  /\ fetch_news_for_config (env_with_response (inr response_200_null)) 0 demo_clock 7 1
       (Some "key") demo_db0
     = (Returned (error_result "Unexpected error: error"), demo_db0).
Proof.
  split.
  - destruct (malformed_response (env_with_response (inr response_200_list)) 0 demo_clock 7 1
                (Some "key") demo_db0 demo_config "key" response_200_list
                eq_refl eq_refl eq_refl eq_refl eq_refl) as [H _].
    + simpl. lia.
    + apply (H (PList []) eq_refl). discriminate.
  - destruct (malformed_response (env_with_response (inr response_200_null)) 0 demo_clock 7 1
                (Some "key") demo_db0 demo_config "key" response_200_null
                eq_refl eq_refl eq_refl eq_refl eq_refl) as [_ H].
    + simpl. lia.
    + apply (H _ eq_refl eq_refl eq_refl).
Defined.

Lemma fetch_store_ok_witness :
  store_ok (fetch_news_for_config (env_with_response (inr response_200_ok)) 0 demo_clock 7 1
              (Some "key") demo_db0).2.
Proof. apply fetch_store_ok. exact demo_db0_ok. Defined.

Lemma cleanup_twice_witness :
  cleanup_old_articles demo_env (demo_clock 0) None
    (cleanup_old_articles demo_env (demo_clock 0) None aged_db).2
  = (Returned (<["status" := PStr "success"]>
       (<["cutoff_date" := PStr "cutoff"]> (<["deleted_count" := PInt 0]> ∅))),
     mkDB ∅ [article_at 2 "b" 0 (demo_clock 0 - days_us 30)] 3).
Proof.
  rewrite (cleanup_twice demo_env (demo_clock 0) (demo_clock 0) None None aged_db).
  - vm_compute. reflexivity.
  - unfold cutoff_fits. vm_compute. intuition discriminate.
  - unfold cutoff_fits. vm_compute. intuition discriminate.
  - simpl. lia.
Defined.

Lemma fan_out_none_witness :
  fetch_news_for_all_active_configs demo_env (fun _ => inr "task") None demo_db_inactive []
  = (<["configs_processed" := PInt 0]>
       (<["message" := PStr "No active configurations"]> ∅), []).
Proof.
  apply fan_out_none. intros k c H.
  simpl in H. apply lookup_insert_Some in H as [[_ <-]|[_ H]]; [reflexivity|].
  rewrite lookup_empty in H. discriminate.
Defined.

Lemma fan_out_all_witness :
  (fetch_news_for_all_active_configs demo_env (fun _ => inr "task") (Some "key")
     demo_db0 []).2
  = [(1, Some "key"); (2, Some "key")]
  \/ (fetch_news_for_all_active_configs demo_env (fun _ => inr "task") (Some "key")
        demo_db0 []).2
     = [(2, Some "key"); (1, Some "key")].
Proof.
  rewrite (fan_out_all demo_env (fun _ => "task") (Some "key") demo_db0 [])
    by (vm_compute; discriminate).
  vm_compute. auto.
Defined.

Lemma fan_out_refused_witness :
  (fetch_news_for_all_active_configs demo_env broker_down_at_1 None demo_db0 []).1
  = error_result "Error scheduling tasks: error"
  /\ length (fetch_news_for_all_active_configs demo_env broker_down_at_1 None demo_db0 []).2
     = 1%nat.
Proof.
  rewrite (fan_out_refused demo_env broker_down_at_1 (fun _ => "task-0") DatabaseError 1 None
             demo_db0 []).
  - split; vm_compute; reflexivity.
  - vm_compute. lia.
  - intros j Hj. assert (j = 0%nat) as -> by lia. reflexivity.
  - reflexivity.
Defined.

Lemma not_found_witness :
  delete_config 9 demo_db1 = (inl Http404, demo_db1)
  /\ get_config 9 demo_db1 = inl Http404.
Proof.
  destruct (not_found demo_env 9 demo_db1 eq_refl) as (H1 & _ & H3 & _).
  split; assumption.
Defined.

Lemma delete_config_cascade_witness :
  configs (delete_config 1 demo_db1).2 !! 1 = None
  /\ configs (delete_config 1 demo_db1).2 !! 2 = Some demo_config
  /\ ~ In demo_article (articles (delete_config 1 demo_db1).2)
  /\ store_ok (delete_config 1 demo_db1).2.
Proof.
  destruct (delete_config_cascade 1 demo_db1 demo_config eq_refl)
    as (_ & Hgone & Hother & Harts & Hok).
  split; [exact Hgone|]. split; [rewrite Hother by discriminate; reflexivity|].
  split; [|exact (Hok demo_db1_ok)].
  intros Hin. apply Harts in Hin as [_ Hne]. apply Hne. reflexivity.
Defined.

Lemma deleted_config_unavailable_witness :
  fetch_news_for_config demo_env 0 demo_clock 7 1 (Some "key") (delete_config 1 demo_db1).2
  = (Returned (error_result "Configuration not found or inactive"),
     (delete_config 1 demo_db1).2).
Proof.
  apply (deleted_config_unavailable demo_env 1 demo_db1 demo_config 0 demo_clock 7
           (Some "key") [] eq_refl).
Defined.

Lemma create_article_dedup_witness :
  create_article demo_env 5 demo_payload demo_db1 = (inr demo_article, demo_db1)
  /\ create_from_newsapi demo_env 5 (PDict demo_record) 2 demo_db1
     = (inr (demo_article, false), demo_db1).
Proof.
  destruct (create_article_dedup demo_env (demo_clock 0) demo_payload demo_db0 demo_article
              demo_db1) as [H1 H2].
  { vm_compute. reflexivity. }
  split.
  - apply H1; [reflexivity|]. vm_compute. eexists. reflexivity.
  - apply H2; reflexivity.
Defined.

Lemma create_article_stored_witness :
  Article.title demo_article = p_title demo_payload
  /\ Article.created_at demo_article = demo_clock 0
  /\ articles demo_db1 = (articles demo_db0 ++ [demo_article])%list.
Proof.
  destruct (create_article_stored demo_env (demo_clock 0) demo_payload demo_db0 demo_article
              demo_db1) as (_ & Ht & _ & _ & _ & _ & _ & _ & _ & _ & Hc & _ & Ha & _).
  - intros [].
  - vm_compute. reflexivity.
  - auto.
Defined.

Lemma get_config_articles_spec_witness :
  exists l, get_config_articles 1 demo_db1 = inr l /\ In demo_article l.
Proof.
  destruct (get_config_articles_spec 1 demo_db1 demo_config eq_refl) as (l & Hl & Hin & _).
  exists l. split; [exact Hl|]. apply Hin. split; [left|]; reflexivity.
Defined.

Lemma update_config_spec_witness :
  update_config (fun _ => true) 9 1
    (mkConfigPayload "Tech" None "us" "technology" (Some "") "publishedAt" "daily" true)
    demo_db0
  = (inl IntegrityError, demo_db0)
  /\ created_at demo_config_off = created_at demo_config
  /\ updated_at demo_config_off = 9.
Proof.
  split.
  - apply (proj1 (update_config_spec (fun _ => true) 9 1
             (mkConfigPayload "Tech" None "us" "technology" (Some "") "publishedAt" "daily"
                true) demo_db0 demo_config eq_refl)).
    left. reflexivity.
  - destruct (proj2 (update_config_spec (fun _ => true) 9 1 demo_config_payload demo_db0
                       demo_config eq_refl) demo_config_off
                (update_config (fun _ => true) 9 1 demo_config_payload demo_db0).2)
      as (_ & Hc & _ & Hu & _).
    + vm_compute. reflexivity.
    + auto.
Defined.

Lemma deactivated_config_witness :
  get_config 1 (update_config (fun _ => true) 9 1 demo_config_payload demo_db0).2
  = inr demo_config_off
  /\ fetch_news_for_config demo_env 0 demo_clock 7 1 (Some "key")
       (update_config (fun _ => true) 9 1 demo_config_payload demo_db0).2
     = (Returned (error_result "Configuration not found or inactive"),
        (update_config (fun _ => true) 9 1 demo_config_payload demo_db0).2).
Proof.
  destruct (deactivated_config demo_env (fun _ => true) 9 1 demo_config_payload demo_db0
              demo_config_off
              (update_config (fun _ => true) 9 1 demo_config_payload demo_db0).2
              0 demo_clock 7 (Some "key")) as (H1 & _ & _ & H4).
  - vm_compute. reflexivity.
  - reflexivity.
  - auto.
Defined.

Lemma endpoints_store_ok_witness :
  store_ok (delete_config 1 demo_db1).2
  /\ store_ok (create_article demo_env 5 demo_payload demo_db1).2.
Proof.
  destruct (endpoints_store_ok demo_env demo_db1 demo_db1_ok) as (_ & H2 & H3 & _).
  split; [apply H3|apply H2].
Defined.

Lemma list_articles_spec_witness :
  list_articles (merge_sort newer_article) (Some (-1)) demo_db1 = inl NegativeIndexing
  /\ list_articles (merge_sort newer_article) (Some 9223372036854775808) demo_db1
     = inl LimitOutOfRange
  /\ exists l, list_articles (merge_sort newer_article) None demo_db1 = inr l
               /\ length l = 1%nat.
Proof.
  pose proof (merge_sort_ordered (articles demo_db1)) as Hord.
  split; [|split].
  - apply (proj1 (list_articles_spec (merge_sort newer_article) (Some (-1)) demo_db1 Hord)).
    simpl. lia.
  - apply (proj1 (proj2 (list_articles_spec (merge_sort newer_article)
                           (Some 9223372036854775808) demo_db1 Hord))).
    unfold limit_max. simpl. lia.
  - destruct (proj2 (proj2 (list_articles_spec (merge_sort newer_article) None demo_db1 Hord)))
      as (l & Hl & Hlen & _).
    + unfold limit_max. simpl. lia.
    + exists l. split; [exact Hl|]. rewrite Hlen. reflexivity.
Defined.
